(** * The UMKM question-answering service (rag.service.ts, rag.controller.ts)

    A shallow embedding of the document construction, the source formatting,
    the ask-question path with its error handling, the insights path and the
    HTTP controller, together with the properties the specification states
    about them. *)

From Stdlib Require Import String Ascii List Bool Arith Lia ZArith DecimalString.
From Stdlib Require Import QArith Permutation Sorted.
Local Close Scope Q_scope.
Import ListNotations.
Set Warnings "-register-all".
Set Default Proof Using "Type".
Local Open Scope string_scope.
Local Open Scope list_scope.

Infix "+:+" := String.append (at level 60, right associativity).

(** ** Strings

    A JavaScript string is modelled by the byte sequence of its UTF-8
    encoding, which is also how the dataset file is read. *)

Definition LF : string := String (ascii_of_nat 10) EmptyString.
Definition DQUOTE : string := String (ascii_of_nat 34) EmptyString.

(** [Array.prototype.join] on an array of strings. *)
Definition join (sep : string) (parts : list string) : string :=
  String.concat sep parts.

(** ** Completions: a value returned or an error thrown *)

Record Error := mkError { name : string; message : string }.

Definition new_Error (msg : string) : Error := mkError "Error" msg.
Definition new_TypeError (msg : string) : Error := mkError "TypeError" msg.

Inductive completion (A : Type) : Type :=
| Normal (a : A)
| Throw (e : Error).
Arguments Normal {A} a.
Arguments Throw {A} e.

Definition cbind {A B} (c : completion A) (k : A -> completion B) : completion B :=
  match c with
  | Normal a => k a
  | Throw e => Throw e
  end.

Notation "x <~ c ;; k" := (cbind c (fun x => k))
  (at level 61, c at next level, right associativity).

(** [Array.prototype.forEach] with a callback that updates the variables it
    closes over (the accumulator [s]) and may throw. *)
Fixpoint forEach_from {A St : Type} (i : nat) (l : list A)
    (f : A -> nat -> St -> completion St) (s : St) : completion St :=
  match l with
  | [] => Normal s
  | x :: l' => s' <~ f x i s ;; forEach_from (S i) l' f s'
  end.

Definition forEach {A St : Type} (l : list A)
    (f : A -> nat -> St -> completion St) (s : St) : completion St :=
  forEach_from 0 l f s.

(** ** JavaScript values obtained from [JSON.parse] *)

(** The runtime's number type.  The service only tests numbers for
    truthiness, converts them to strings and receives array indices. *)
Class JsNumber (number : Type) := {
  num_truthy : number -> bool;
  num_finite : number -> bool;
  num_of_nat : nat -> number;
  num_to_string : number -> string
}.

(** An object is the list of its own properties in enumeration order. *)
Inductive json (number : Type) : Type :=
| JNull
| JBool (b : bool)
| JNum (n : number)
| JStr (s : string)
| JArr (items : list (json number))
| JObj (props : list (string * json number)).
Arguments JNull {number}.
Arguments JBool {number} b.
Arguments JNum {number} n.
Arguments JStr {number} s.
Arguments JArr {number} items.
Arguments JObj {number} props.

Section Values.
Context {number : Type} `{JsNumber number}.

Local Abbreviation value := (json number).
Local Abbreviation object := (list (string * json number)).

(** [obj[key]] on the property list of an object; [None] is [undefined]. *)
Fixpoint get_own (props : object) (key : string) : option value :=
  match props with
  | [] => None
  | (k, v) :: rest => if String.eqb k key then Some v else get_own rest key
  end.

(** [obj[key] = v]: overwrite in place, or append a new property. *)
Fixpoint set_own (props : object) (key : string) (v : value) : object :=
  match props with
  | [] => [(key, v)]
  | (k, w) :: rest =>
      if String.eqb k key then (k, v) :: rest else (k, w) :: set_own rest key v
  end.

(** [item[field]] for a parsed JSON value and one of the field names the
    service reads: a property of an object, [undefined] on arrays, strings,
    numbers and booleans, a TypeError on [null]. *)
Definition get_property (item : value) (field : string) : completion (option value) :=
  match item with
  | JNull =>
      Throw (new_TypeError
        ("Cannot read properties of null (reading '" +:+ field +:+ "')"))
  | JObj props => Normal (get_own props field)
  | _ => Normal None
  end.

Definition ToBoolean (v : option value) : bool :=
  match v with
  | None => false
  | Some JNull => false
  | Some (JBool b) => b
  | Some (JNum n) => num_truthy n
  | Some (JStr s) => negb (String.eqb s "")
  | Some (JArr _) => true
  | Some (JObj _) => true
  end.

Definition typeof (v : option value) : string :=
  match v with
  | None => "undefined"
  | Some JNull => "object"
  | Some (JBool _) => "boolean"
  | Some (JNum _) => "number"
  | Some (JStr _) => "string"
  | Some (JArr _) => "object"
  | Some (JObj _) => "object"
  end.

(** String conversion as performed by a template literal. *)
Fixpoint ToString_value (v : value) : string :=
  match v with
  | JNull => "null"
  | JBool true => "true"
  | JBool false => "false"
  | JNum n => num_to_string n
  | JStr s => s
  | JArr items =>
      join "," (map (fun x => match x with
                              | JNull => ""
                              | _ => ToString_value x
                              end) items)
  | JObj _ => "[object Object]"
  end.

Definition ToString (v : option value) : string :=
  match v with
  | None => "undefined"
  | Some w => ToString_value w
  end.

(** *** [JSON.stringify(value, null, 2)] *)

Definition hex_digit (n : nat) : string :=
  String.substring n 1 "0123456789abcdef".

Definition quote_char (c : ascii) : string :=
  let n := nat_of_ascii c in
  if Nat.eqb n 8 then "\b"
  else if Nat.eqb n 9 then "\t"
  else if Nat.eqb n 10 then "\n"
  else if Nat.eqb n 12 then "\f"
  else if Nat.eqb n 13 then "\r"
  else if Nat.eqb n 34 then "\" +:+ DQUOTE
  else if Nat.eqb n 92 then "\\"
  else if Nat.ltb n 32 then "\u00" +:+ hex_digit (n / 16) +:+ hex_digit (n mod 16)
  else String c EmptyString.

Fixpoint quote_body (s : string) : string :=
  match s with
  | EmptyString => EmptyString
  | String c rest => quote_char c +:+ quote_body rest
  end.

Definition QuoteJSONString (s : string) : string :=
  DQUOTE +:+ quote_body s +:+ DQUOTE.

Fixpoint stringify_at (indent : string) (v : value) : string :=
  let stepback := indent in
  let indent := indent +:+ "  " in
  match v with
  | JNull => "null"
  | JBool true => "true"
  | JBool false => "false"
  | JNum n => if num_finite n then num_to_string n else "null"
  | JStr s => QuoteJSONString s
  | JArr [] => "[]"
  | JArr items =>
      "[" +:+ LF +:+ indent
        +:+ join ("," +:+ LF +:+ indent) (map (stringify_at indent) items)
        +:+ LF +:+ stepback +:+ "]"
  | JObj [] => "{}"
  | JObj props =>
      "{" +:+ LF +:+ indent
        +:+ join ("," +:+ LF +:+ indent)
              (map (fun kv => QuoteJSONString (fst kv) +:+ ": "
                                +:+ stringify_at indent (snd kv)) props)
        +:+ LF +:+ stepback +:+ "}"
  end.

Definition JSON_stringify_pretty (v : value) : string := stringify_at "" v.

End Values.

(** Integers as an instance of the number interface, for concrete runs. *)
#[export] Instance JsNumber_Z : JsNumber Z := {|
  num_truthy := fun z => negb (Z.eqb z 0);
  num_finite := fun _ => true;
  num_of_nat := Z.of_nat;
  num_to_string := fun z => NilZero.string_of_int (Z.to_int z)
|}.

(** ** Documents *)

Record Document (number : Type) := mkDocument {
  pageContent : string;
  metadata : option (list (string * json number))
}.
Arguments mkDocument {number} pageContent metadata.
Arguments pageContent {number} d.
Arguments metadata {number} d.

Definition contentFields : list string :=
  [ "nama"; "name"; "title"; "judul"; "deskripsi"; "description"; "desc";
    "kategori"; "category"; "jenis"; "type"; "alamat"; "address"; "lokasi";
    "location"; "produk"; "product"; "layanan"; "service"; "keterangan";
    "info"; "detail" ].

Definition metadataFields : list string :=
  [ "id"; "kategori"; "category"; "jenis"; "type"; "alamat"; "address";
    "kota"; "city"; "provinsi"; "province" ].

Section DocumentConstruction.
Context {number : Type} `{JsNumber number}.

Local Abbreviation value := (json number).
Local Abbreviation object := (list (string * json number)).

Definition extractContentFromItem (item : value) : completion string :=
  contentParts <~
    forEach contentFields
      (fun field _ (contentParts : list string) =>
         v <~ get_property item field ;;
         if ToBoolean v && String.eqb (typeof v) "string"
         then Normal (contentParts ++ [field +:+ ": " +:+ ToString v])
         else Normal contentParts)
      [] ;;
  let contentParts :=
    if Nat.eqb (length contentParts) 0
    then contentParts ++ [JSON_stringify_pretty item]
    else contentParts in
  Normal (join LF contentParts).

Definition extractMetadataFromItem (item : value) : completion object :=
  forEach metadataFields
    (fun field _ (metadata : object) =>
       v <~ get_property item field ;;
       match v with
       | Some w =>
           if ToBoolean (Some w) then Normal (set_own metadata field w)
           else Normal metadata
       | None => Normal metadata
       end)
    [].

(** Object spread [{...target, ...source}] onto already written properties. *)
Definition spread (target source : object) : object :=
  fold_left (fun acc kv => set_own acc (fst kv) (snd kv)) source target.

Definition make_metadata (index : nat) (extracted : object) : object :=
  spread [ ("source", JStr "dataset_umkm.json");
           ("index", JNum (num_of_nat index)) ] extracted.

Definition make_document (item : value) (index : nat) : completion (Document number) :=
  content <~ extractContentFromItem item ;;
  extracted <~ extractMetadataFromItem item ;;
  Normal (mkDocument content (Some (make_metadata index extracted))).

(** The conversion step of [loadDocuments], applied to the parsed file. *)
Definition documents_of (jsonData : value) : completion (list (Document number)) :=
  match jsonData with
  | JArr items =>
      forEach items
        (fun item index documents =>
           doc <~ make_document item index ;;
           Normal (documents ++ [doc]))
        []
  | _ =>
      doc <~ make_document jsonData 0 ;;
      Normal ([] ++ [doc])
  end.

End DocumentConstruction.

(** ** Effects: the events a request leaves behind, and its completion *)

Inductive event : Type :=
| LogInfo (msg : string)
| LogError (msg : string) (e : Error)
| Index (texts : list string)
| Retrieve (query : string)
| Generate (prompt : string).

Definition action (A : Type) : Type := (list event * completion A)%type.

Definition ret {A} (a : A) : action A := ([], Normal a).
Definition throw {A} (e : Error) : action A := ([], Throw e).
Definition emit (ev : event) : action unit := ([ev], Normal tt).
Definition lift {A} (c : completion A) : action A := ([], c).

Definition bind {A B} (m : action A) (k : A -> action B) : action B :=
  match m with
  | (t, Normal a) => let (t', r) := k a in (t ++ t', r)
  | (t, Throw e) => (t, Throw e)
  end.

(** [try { m } catch (error) { handler error }] *)
Definition try_catch {A} (m : action A) (handler : Error -> action A) : action A :=
  match m with
  | (t, Throw e) => let (t', r) := handler e in (t ++ t', r)
  | ok => ok
  end.

Notation "x <- m ;; k" := (bind m (fun x => k))
  (at level 61, m at next level, right associativity).
Notation "m ;;; k" := (bind m (fun _ => k))
  (at level 61, right associativity).

(** ** [String.prototype.trim]

    White space and line terminators are U+0009 to U+000D, U+0020, U+00A0,
    U+1680, U+2000 to U+200A, U+2028, U+2029, U+202F, U+205F, U+3000 and
    U+FEFF, recognised here by their UTF-8 encodings. *)

Definition ws1 (c : ascii) : bool :=
  let n := nat_of_ascii c in
  (Nat.leb 9 n && Nat.leb n 13) || Nat.eqb n 32.

Definition ws2 (c1 c2 : ascii) : bool :=
  Nat.eqb (nat_of_ascii c1) 194 && Nat.eqb (nat_of_ascii c2) 160.

Definition ws3 (c1 c2 c3 : ascii) : bool :=
  let a := nat_of_ascii c1 in
  let b := nat_of_ascii c2 in
  let c := nat_of_ascii c3 in
  (Nat.eqb a 225 && Nat.eqb b 154 && Nat.eqb c 128)
  || (Nat.eqb a 226 && Nat.eqb b 128
      && ((Nat.leb 128 c && Nat.leb c 138) || Nat.eqb c 168 || Nat.eqb c 169
          || Nat.eqb c 175))
  || (Nat.eqb a 226 && Nat.eqb b 129 && Nat.eqb c 159)
  || (Nat.eqb a 227 && Nat.eqb b 128 && Nat.eqb c 128)
  || (Nat.eqb a 239 && Nat.eqb b 187 && Nat.eqb c 191).

(** Strips white space from the front of a byte list; with [backwards] the
    list is a reversed string, so each encoding is met last byte first. *)
Fixpoint strip (backwards : bool) (l : list ascii) : list ascii :=
  match l with
  | [] => []
  | c1 :: r1 =>
      if ws1 c1 then strip backwards r1
      else
        match r1 with
        | [] => l
        | c2 :: r2 =>
            if (if backwards then ws2 c2 c1 else ws2 c1 c2)
            then strip backwards r2
            else
              match r2 with
              | [] => l
              | c3 :: r3 =>
                  if (if backwards then ws3 c3 c2 c1 else ws3 c1 c2 c3)
                  then strip backwards r3
                  else l
              end
        end
  end.

Definition trim (s : string) : string :=
  string_of_list_ascii
    (rev (strip true (rev (strip false (list_ascii_of_string s))))).

(** ** The prompt template and the insights prompt *)

Inductive template_node : Type :=
| Literal (text : string)
| Variable_ (name : string).

Definition PromptTemplate := list template_node.

Definition template_head : string :=
  "
        Namamu Adalah Sentinela
        Gunakan konteks berikut untuk menjawab pertanyaan tentang UMKM (Usaha Mikro, Kecil, dan Menengah).
        Berikan jawaban yang informatif dan akurat berdasarkan data yang tersedia.
        
        Konteks:
        ".

Definition template_middle : string :=
  "
        
        Pertanyaan: ".

Definition template_tail : string :=
  "
        
        Jawaban:
      ".

Definition promptTemplate : PromptTemplate :=
  [ Literal template_head; Variable_ "context";
    Literal template_middle; Variable_ "question";
    Literal template_tail ].

Fixpoint lookup_input (inputs : list (string * string)) (key : string) : string :=
  match inputs with
  | [] => ""
  | (k, v) :: rest => if String.eqb k key then v else lookup_input rest key
  end.

Fixpoint format (t : PromptTemplate) (inputs : list (string * string)) : string :=
  match t with
  | [] => ""
  | Literal text :: rest => text +:+ format rest inputs
  | Variable_ x :: rest => lookup_input inputs x +:+ format rest inputs
  end.

Definition insightsPrompt : string :=
  "Buatkan key insight dan key strategy berdasarkan data di atas.
  
  **Pola Penting:**
  1. Hubungan antara sentimen positif dan engagement: Apakah benar konten positif menghasilkan engagement 40% lebih tinggi?
  2. Analisis sentimen netral: Peluang apa yang bisa ditangkap UMKM untuk meningkatkan daya saing dari opini yang belum jelas positif/negative?
  3. Dari sentimen positif, aspek apa yang paling sering dipuji (harga, kualitas, pelayanan, inovasi)? Bagaimana UMKM bisa memanfaatkan hal ini untuk branding?
  4. Berdasarkan analisis sentimen, strategi komunikasi digital apa yang sebaiknya dijalankan UMKM untuk meningkatkan citra di media sosial?
  5. Mengapa hanya 0.6% konten yang berhasil memicu emosi positif?
  6. Potensi Tersembunyi: Apakah ada postingan netral dengan engagement tinggi yang sebenarnya bisa dikategorikan positif?
  7. Analisis bagaimana UMKM lokal di Indonesia saat ini memanfaatkan media sosial untuk membangun citra brand. Identifikasi gap antara penggunaan media sosial tradisional dengan pendekatan analisis sentimen yang lebih canggih. Berikan data statistik terkini dan contoh kasus nyata.
  
  **Arah Analisis:**
  - Fokus pada: Strategi konten
  - Tujuan: Meningkatkan engagement melalui konten yang lebih emosional
  - Stakeholder: Tim marketing
  
  **Format Output:**
  1. **Headline Insight**: 1 kalimat singkat yang paling mencolok
  2. **Data Pendukung**: 3-5 angka kunci terkait
  3. **Analisis Mendalam**:
     - Penyebab potensial
     - Implikasi bisnis
     - Perbandingan dengan benchmark
  4. **Rekomendasi Aksi**:
     - 2-3 langkah konkret
     - Timeline implementasi
     - Metrik sukses
  5. **Risiko & Peluang**:
     - Risiko jika tidak diatasi
     - Peluang yang bisa dimanfaatkan
  6. **Saran dan Strategy**:
     - Saran untuk UMKM kedepannya
     - Strategy yang nanti digunakan kedepannya
  
  **Tingkat Kedalaman:** Komprehensif
  
  Berikan jawaban yang terstruktur dan mendalam berdasarkan data yang tersedia.".

Definition noAnswerMessage : string :=
  "Tidak dapat menemukan jawaban yang sesuai.".

(** ** The service *)

Record EmbeddingsConfig := mkEmbeddings { emb_apiKey : string; emb_model : string }.
(** The sampling temperature (0.7) only travels to the provider. *)
Record ChatConfig := mkChat { chat_apiKey : string; chat_model : string }.

Record RagQueryResponse := mkResponse { answer : string; sources : list string }.

Section Service.
Context {number : Type} `{JsNumber number}.

Local Abbreviation value := (json number).
Local Abbreviation object := (list (string * json number)).
Local Abbreviation Doc := (Document number).

(** The runtime and the providers the service delegates to: the JSON parser,
    the in-memory vector store (indexing and similarity search with the
    embedding model) and the chat-completion model. *)
Variable JSON_parse : string -> completion value.
Variable Vectors : Type.
Variable embed_documents : EmbeddingsConfig -> list Doc -> completion Vectors.
Variable similarity_search :
  EmbeddingsConfig -> Vectors -> nat -> string -> completion (list Doc).
Variable chat_completion : ChatConfig -> string -> completion string.

Record MemoryVectorStore := mkStore {
  store_embeddings : EmbeddingsConfig;
  memoryVectors : Vectors
}.

Record Retriever := mkRetriever { retriever_store : MemoryVectorStore; k : nat }.

Record RetrievalQAChain := mkChain {
  chain_llm : ChatConfig;
  chain_retriever : Retriever;
  chain_prompt : PromptTemplate;
  returnSourceDocuments : bool
}.

(** The values a chain call resolves to; an absent key is [None]. *)
Record ChainValues := mkValues {
  cv_text : option string;
  cv_answer : option string;
  cv_sourceDocuments : option (list Doc)
}.

Record RagService := mkService {
  vectorStore : option MemoryVectorStore;
  qaChain : option RetrievalQAChain;
  embeddings : option EmbeddingsConfig;
  llm : option ChatConfig
}.

Definition new_RagService : RagService := mkService None None None None.

(** What the process finds at start-up: the configured API key, the resolved
    path of the dataset file and, when the file exists, its contents. *)
Record Environment := mkEnv {
  GEMINI_API_KEY : option string;
  jsonPath : string;
  dataset_file : option string
}.

(** [MemoryVectorStore.fromDocuments(documents, embeddings)] *)
Definition fromDocuments (documents : list Doc) (e : EmbeddingsConfig)
  : action MemoryVectorStore :=
  emit (Index (map pageContent documents)) ;;;
  vs <- lift (embed_documents e documents) ;;
  ret (mkStore e vs).

Definition getRelevantDocuments (r : Retriever) (query : string) : action (list Doc) :=
  emit (Retrieve query) ;;;
  lift (similarity_search (store_embeddings (retriever_store r))
          (memoryVectors (retriever_store r)) (k r) query).

(** [RetrievalQAChain.call({query})] for a chain built by [fromLLM], as the
    chain library runs it: fetch the relevant documents for the query, join
    their texts with a blank line into the context block, substitute the
    context and the query into the prompt and send it to the model; the
    generated text comes back under [text]. *)
Definition chain_call (chain : RetrievalQAChain) (query : string) : action ChainValues :=
  docs <- getRelevantDocuments (chain_retriever chain) query ;;
  let context := join (LF +:+ LF) (map pageContent docs) in
  let prompt :=
    format (chain_prompt chain) [("question", query); ("context", context)] in
  emit (Generate prompt) ;;;
  text <- lift (chat_completion (chain_llm chain) prompt) ;;
  ret (mkValues (Some text) None
         (if returnSourceDocuments chain then Some docs else None)).

Definition loadDocuments (env : Environment) : action (list Doc) :=
  try_catch
    (match dataset_file env with
     | None => throw (new_Error ("Dataset file not found at: " +:+ jsonPath env))
     | Some text =>
         jsonData <- lift (JSON_parse text) ;;
         documents <- lift (documents_of jsonData) ;;
         emit (LogInfo ("Loaded "
                          +:+ num_to_string (num_of_nat (length documents))
                          +:+ " documents from JSON file")) ;;;
         ret documents
     end)
    (fun error =>
       emit (LogError "Error loading documents:" error) ;;; throw error).

Definition string_truthy (s : option string) : bool :=
  match s with
  | Some t => negb (String.eqb t "")
  | None => false
  end.

(** [initializeRag]: the fields assigned so far stay assigned when a later
    step throws. *)
Definition initializeRag (env : Environment) (this : RagService)
  : RagService * action unit :=
  let failed (this' : RagService) (t : list event) (error : Error) :=
    (this', (LogInfo "Initializing RAG system..." :: t
               ++ [LogError "Failed to initialize RAG system:" error],
             Throw error)) in
  if string_truthy (GEMINI_API_KEY env) then
    let apiKey := match GEMINI_API_KEY env with Some key => key | None => "" end in
    let e := mkEmbeddings apiKey "embedding-001" in
    let l := mkChat apiKey "gemini-2.0-flash" in
    let this1 := mkService (vectorStore this) (qaChain this) (Some e) (Some l) in
    match loadDocuments env with
    | (t1, Throw error) => failed this1 t1 error
    | (t1, Normal documents) =>
        match fromDocuments documents e with
        | (t2, Throw error) => failed this1 (t1 ++ t2) error
        | (t2, Normal vs) =>
            let retriever := mkRetriever vs 5 in
            let chain := mkChain l retriever promptTemplate true in
            (mkService (Some vs) (Some chain) (Some e) (Some l),
             (LogInfo "Initializing RAG system..." :: t1 ++ t2
                ++ [LogInfo "RAG system initialized successfully"],
              Normal tt))
        end
    end
  else
    failed this []
      (mkError "BadRequestException" "GEMINI_API_KEY is not configured").

(** The [Set] built from an array keeps the first occurrence of each string,
    in insertion order. *)
Fixpoint Set_has (members : list string) (x : string) : bool :=
  match members with
  | [] => false
  | y :: rest => String.eqb y x || Set_has rest x
  end.

Definition Set_add (members : list string) (x : string) : list string :=
  if Set_has members x then members else members ++ [x].

Definition new_Set (items : list string) : list string :=
  fold_left Set_add items [].

(** One callback of the loop over [result.sourceDocuments], and the loop. *)
Definition source_entry (doc : Doc) (index : nat) : string :=
  let md_source :=
    match metadata doc with Some md => get_own md "source" | None => None end in
  let md_index :=
    match metadata doc with Some md => get_own md "index" | None => None end in
  let source :=
    if ToBoolean md_source then ToString md_source else "Unknown source" in
  let docIndex :=
    match md_index with
    | Some v => ToString_value v
    | None => num_to_string (num_of_nat index)
    end in
  source +:+ " (Document " +:+ docIndex +:+ ")".

Fixpoint push_sources (docs : list Doc) (index : nat) (sources : list string)
  : list string :=
  match docs with
  | [] => sources
  | doc :: rest => push_sources rest (S index) (sources ++ [source_entry doc index])
  end.

Definition collect_sources (result : ChainValues) : list string :=
  match cv_sourceDocuments result with
  | Some docs => push_sources docs 0 []
  | None => []
  end.

Definition choose_answer (result : ChainValues) : string :=
  match cv_text result with
  | Some t =>
      if string_truthy (Some t) then t
      else match cv_answer result with
           | Some a => if string_truthy (Some a) then a else noAnswerMessage
           | None => noAnswerMessage
           end
  | None =>
      match cv_answer result with
      | Some a => if string_truthy (Some a) then a else noAnswerMessage
      | None => noAnswerMessage
      end
  end.

(** The body of the [try] block of [askQuestion]. *)
Definition askQuestion_body (this : RagService) (query : string)
  : action RagQueryResponse :=
  match qaChain this with
  | None => throw (new_Error "RAG system is not initialized")
  | Some chain =>
      emit (LogInfo ("Processing query: " +:+ query)) ;;;
      result <- chain_call chain query ;;
      let sources := collect_sources result in
      ret (mkResponse (choose_answer result) (new_Set sources))
  end.

Definition askQuestion (this : RagService) (query : string)
  : action RagQueryResponse :=
  try_catch (askQuestion_body this query)
    (fun error =>
       emit (LogError "Error processing query:" error) ;;;
       throw (new_Error ("Failed to process query: " +:+ message error))).

Definition getInsights (this : RagService) : action RagQueryResponse :=
  try_catch
    (let prompt := insightsPrompt in
     result <- askQuestion this prompt ;;
     ret result)
    (fun error =>
       emit (LogError "Error getting insights:" error) ;;;
       throw (new_Error ("Failed to generate insights: " +:+ message error))).

(** ** The controller: [POST /rag/query] *)

Record CreateQueryDto := mkQuery { question : string }.

Definition RagController_query (ragService : RagService) (queryDto : CreateQueryDto)
  : action RagQueryResponse :=
  result <- askQuestion ragService (trim (question queryDto)) ;;
  ret (mkResponse (answer result) (sources result)).

End Service.

Arguments mkStore {Vectors} _ _.
Arguments store_embeddings {Vectors} _.
Arguments memoryVectors {Vectors} _.
Arguments mkRetriever {Vectors} _ _.
Arguments retriever_store {Vectors} _.
Arguments k {Vectors} _.
Arguments mkChain {Vectors} _ _ _ _.
Arguments chain_llm {Vectors} _.
Arguments chain_retriever {Vectors} _.
Arguments chain_prompt {Vectors} _.
Arguments returnSourceDocuments {Vectors} _.
Arguments mkService {Vectors} _ _ _ _.
Arguments vectorStore {Vectors} _.
Arguments qaChain {Vectors} _.
Arguments embeddings {Vectors} _.
Arguments llm {Vectors} _.
Arguments new_RagService {Vectors}.
Arguments fromDocuments {number Vectors} embed_documents documents e.
Arguments getRelevantDocuments {number Vectors} similarity_search r query.
Arguments chain_call {number Vectors} similarity_search chat_completion chain query.
Arguments initializeRag {number _} JSON_parse {Vectors} embed_documents env this.
Arguments askQuestion_body {number _ Vectors} similarity_search chat_completion this query.
Arguments askQuestion {number _ Vectors} similarity_search chat_completion this query.
Arguments getInsights {number _ Vectors} similarity_search chat_completion this.
Arguments RagController_query {number _ Vectors} similarity_search chat_completion
  ragService queryDto.

(** * Specification-side definitions *)

Section Specification.
Context {number : Type} `{JsNumber number}.

Local Abbreviation value := (json number).
Local Abbreviation object := (list (string * json number)).
Local Abbreviation Doc := (Document number).

(** The value a record holds under a field name, if any. *)
Definition item_field (item : value) (field : string) : option value :=
  match item with
  | JObj props => get_own props field
  | _ => None
  end.

Definition field_present (item : value) (field : string) : bool :=
  match item_field item field with
  | Some _ => true
  | None => false
  end.

Definition holds_text (item : value) (field : string) : bool :=
  match item_field item field with
  | Some (JStr s) => negb (String.eqb s "")
  | _ => false
  end.

Definition content_line (item : value) (field : string) : string :=
  field +:+ ": " +:+ ToString (item_field item field).

(** The document text in the words of the specification: one line per
    selected field of the allow-list, in its order, or else the whole record
    pretty-printed. *)
Definition content_text (selected : value -> string -> bool) (item : value) : string :=
  match filter (selected item) contentFields with
  | [] => JSON_stringify_pretty item
  | fields => join LF (map (content_line item) fields)
  end.

Definition copied_fields (copied : option value -> bool) (item : value)
    (fields : list string) : object :=
  flat_map (fun field =>
              match item_field item field with
              | Some v => if copied (Some v) then [(field, v)] else []
              | None => []
              end) fields.

(** The metadata in the words of the specification: the source label, the
    position, and a copy of each selected field of the allow-list. *)
Definition metadata_object (copied : option value -> bool) (index : nat)
    (item : value) : object :=
  ("source", JStr "dataset_umkm.json")
    :: ("index", JNum (num_of_nat index))
    :: copied_fields copied item metadataFields.

Definition always_copied (v : option value) : bool := true.

Fixpoint mapi_from {A B : Type} (i : nat) (f : A -> nat -> B) (l : list A) : list B :=
  match l with
  | [] => []
  | x :: rest => f x i :: mapi_from (S i) f rest
  end.

Definition document_for (item : value) (index : nat) : Doc :=
  mkDocument (content_text holds_text item)
    (Some (metadata_object ToBoolean index item)).

Definition is_array (v : value) : bool :=
  match v with
  | JArr _ => true
  | _ => false
  end.

Definition metadata_field (doc : Doc) (key : string) : option value :=
  match metadata doc with
  | Some md => get_own md key
  | None => None
  end.

(** The source string of a retrieved document in the words of the
    specification. *)
Definition rendered_source (doc : Doc) (position : nat) : string :=
  match metadata_field doc "source" with
  | Some v => ToString_value v
  | None => "Unknown source"
  end
  +:+ " (Document "
  +:+ match metadata_field doc "index" with
      | Some v => ToString_value v
      | None => num_to_string (num_of_nat position)
      end
  +:+ ")".

(** The source string of a retrieved document with the fallback taken
    whenever the document has no truthy source label: the label is missing,
    or it is the empty string, 0, false or null. *)
Definition source_label (doc : Doc) (position : nat) : string :=
  (if ToBoolean (metadata_field doc "source")
   then ToString (metadata_field doc "source")
   else "Unknown source")
  +:+ " (Document "
  +:+ match metadata_field doc "index" with
      | Some v => ToString_value v
      | None => num_to_string (num_of_nat position)
      end
  +:+ ")".

(** The source label of a document is usable when it is absent or truthy. *)
Definition source_usable (doc : Doc) : Prop :=
  metadata_field doc "source" = None
  \/ ToBoolean (metadata_field doc "source") = true.

(** Removal of exact duplicates, keeping the first occurrence of each. *)
Definition remove_duplicates (l : list string) : list string :=
  rev (nodup string_dec (rev l)).

Definition is_LogError (ev : event) : bool :=
  match ev with LogError _ _ => true | _ => false end.
Definition is_Retrieve (ev : event) : bool :=
  match ev with Retrieve _ => true | _ => false end.
Definition is_Generate (ev : event) : bool :=
  match ev with Generate _ => true | _ => false end.
Definition is_provider_call (ev : event) : bool :=
  match ev with
  | Index _ | Retrieve _ | Generate _ => true
  | _ => false
  end.

Definition count (p : event -> bool) (t : list event) : nat :=
  length (filter p t).

End Specification.

Section ServiceSpecification.
Context {number : Type} `{JsNumber number}.
Context {Vectors : Type}.

Local Abbreviation Doc := (Document number).

Variable similarity_search :
  EmbeddingsConfig -> Vectors -> nat -> string -> completion (list Doc).
Variable chat_completion : ChatConfig -> string -> completion string.

(** What the retriever of a chain answers for a query. *)
Definition retrieval (chain : RetrievalQAChain Vectors) (query : string)
  : completion (list Doc) :=
  similarity_search
    (store_embeddings (retriever_store (chain_retriever chain)))
    (memoryVectors (retriever_store (chain_retriever chain)))
    (k (chain_retriever chain)) query.

Definition context_block (docs : list Doc) : string :=
  join (LF +:+ LF) (map pageContent docs).

(** The prompt composed for a question and the retrieved documents. *)
Definition composed_prompt (chain : RetrievalQAChain Vectors) (query : string)
    (docs : list Doc) : string :=
  format (chain_prompt chain)
    [("question", query); ("context", context_block docs)].

Definition generation (chain : RetrievalQAChain Vectors) (query : string)
    (docs : list Doc) : completion string :=
  chat_completion (chain_llm chain) (composed_prompt chain query docs).

Definition source_documents (result : ChainValues) : list Doc :=
  match cv_sourceDocuments result with
  | Some docs => docs
  | None => []
  end.

(** The values a chain call resolves to once the model has answered. *)
Definition answered (chain : RetrievalQAChain Vectors) (docs : list Doc)
    (text : string) : ChainValues :=
  mkValues (Some text) None
    (if returnSourceDocuments chain then Some docs else None).

Definition query_failure (e : Error) : Error :=
  new_Error ("Failed to process query: " +:+ message e).

(** The errors a step of [askQuestion] can raise for a query. *)
Inductive raised_by (this : RagService Vectors) (query : string) : Error -> Prop :=
| raised_not_initialized :
    qaChain this = None ->
    raised_by this query (new_Error "RAG system is not initialized")
| raised_by_retrieval chain e :
    qaChain this = Some chain ->
    retrieval chain query = Throw e ->
    raised_by this query e
| raised_by_generation chain docs e :
    qaChain this = Some chain ->
    retrieval chain query = Normal docs ->
    generation chain query docs = Throw e ->
    raised_by this query e.

End ServiceSpecification.

(** ** The in-memory vector store *)

Section VectorStore.
Context {number : Type}.

Local Abbreviation Doc := (Document number).

(** The embedding model and the similarity measure of the store: a vector
    for a text under an embeddings configuration, and the cosine similarity
    of two vectors as the store computes it (a finite floating-point number,
    hence a rational). *)
Variable Vec : Type.
Variable embed_text : EmbeddingsConfig -> string -> completion Vec.
Variable cosine_similarity : Vec -> Vec -> Q.

(** Modelled from the spec: the indexing step of the vector store
    ([MemoryVectorStore.fromDocuments], library code that is not under
    src/).  One embedding vector is computed per document text with the
    embedding model, and the vectors are stored with their documents in a
    simple list, in insertion order. *)
Fixpoint index_documents (e : EmbeddingsConfig) (documents : list Doc)
  : completion (list (Vec * Doc)) :=
  match documents with
  | [] => Normal []
  | doc :: rest =>
      v <~ embed_text e (pageContent doc) ;;
      entries <~ index_documents e rest ;;
      Normal ((v, doc) :: entries)
  end.

(** Modelled from the spec: the score of a stored vector against the query
    vector is their cosine similarity. *)
Definition score (qv : Vec) (entry : Vec * Doc) : Q :=
  cosine_similarity qv (fst entry).

(** Modelled from the spec: the ranking of the store's similarity search
    (library code that is not under src/).  Every stored vector is scored;
    the entries are put in order of decreasing score, and entries of equal
    score stay in insertion order: an entry goes in front of the entries
    inserted after it unless their score is strictly higher. *)
Fixpoint insert_ranked (qv : Vec) (x : Vec * Doc) (ranked : list (Vec * Doc))
  : list (Vec * Doc) :=
  match ranked with
  | [] => [x]
  | y :: rest =>
      if Qle_bool (score qv y) (score qv x)
      then x :: y :: rest
      else y :: insert_ranked qv x rest
  end.

Fixpoint rank (qv : Vec) (entries : list (Vec * Doc)) : list (Vec * Doc) :=
  match entries with
  | [] => []
  | x :: rest => insert_ranked qv x (rank qv rest)
  end.

(** Modelled from the spec: the retrieval step of the vector store (the
    similarity search behind [asRetriever({k})], library code that is not
    under src/).  The query is embedded with the embedding model, every
    stored vector is scored against the query vector, and the documents of
    the [k] best ranked entries are returned. *)
Definition memory_similarity_search (e : EmbeddingsConfig)
    (entries : list (Vec * Doc)) (k : nat) (query : string)
  : completion (list Doc) :=
  qv <~ embed_text e query ;;
  Normal (map snd (firstn k (rank qv entries))).

(** Decreasing score, and the test for a given score. *)
Definition scores_above (qv : Vec) (a b : Vec * Doc) : Prop :=
  Qle (score qv b) (score qv a).

Definition has_score (qv : Vec) (s : Q) (entry : Vec * Doc) : bool :=
  Qeq_bool (score qv entry) s.

End VectorStore.

Arguments index_documents {number Vec} embed_text e documents.
Arguments score {number Vec} cosine_similarity qv entry.
Arguments insert_ranked {number Vec} cosine_similarity qv x ranked.
Arguments rank {number Vec} cosine_similarity qv entries.
Arguments memory_similarity_search {number Vec} embed_text cosine_similarity
  e entries k query.
Arguments scores_above {number Vec} cosine_similarity qv a b.
Arguments has_score {number Vec} cosine_similarity qv s entry.

(** ** Sample data for concrete runs, over integer numbers *)

Definition sample_record : json Z :=
  JObj [ ("id", JNum 0%Z); ("nama", JStr "Kopi Kita");
         ("kategori", JStr "Kuliner"); ("type", JNum 3%Z);
         ("kota", JStr "Bandung") ].

Definition sample_dataset : json Z :=
  JArr [ sample_record; JObj [("rating", JNum 5%Z)] ].

(** A parser that knows the texts of the sample values. *)
Definition sample_parse (text : string) : completion (json Z) :=
  if String.eqb text "null" then Normal JNull
  else if String.eqb text (JSON_stringify_pretty sample_record)
       then Normal sample_record
  else if String.eqb text (JSON_stringify_pretty sample_dataset)
       then Normal sample_dataset
  else Throw (mkError "SyntaxError" "Unexpected token").

(** A store that keeps the documents and answers with the first [k]. *)
Definition sample_embed (_ : EmbeddingsConfig) (docs : list (Document Z))
  : completion (list (Document Z)) := Normal docs.

Definition sample_search (_ : EmbeddingsConfig) (vs : list (Document Z))
    (k : nat) (_ : string) : completion (list (Document Z)) :=
  Normal (firstn k vs).

Definition sample_chat (_ : ChatConfig) (prompt : string) : completion string :=
  Normal "UMKM adalah usaha mikro, kecil, dan menengah.".

Definition silent_chat (_ : ChatConfig) (prompt : string) : completion string :=
  Normal "".

Definition failing_chat (_ : ChatConfig) (prompt : string) : completion string :=
  Throw (new_Error "503 Service Unavailable").

Definition sample_env (text : string) : Environment :=
  mkEnv (Some "test-key") "/app/src/common/data/json/dataset_umkm.json" (Some text).

Definition sample_documents : list (Document Z) :=
  [ document_for sample_record 0; document_for (JObj [("rating", JNum 5%Z)]) 1 ].

Definition sample_chain : RetrievalQAChain (list (Document Z)) :=
  mkChain (mkChat "test-key" "gemini-2.0-flash")
    (mkRetriever (mkStore (mkEmbeddings "test-key" "embedding-001") sample_documents) 5)
    promptTemplate true.

Definition sample_question : string := "Apa itu UMKM?".

Definition sample_request : CreateQueryDto := mkQuery "  Apa itu UMKM?  ".

Definition sample_service : RagService (list (Document Z)) :=
  fst (initializeRag sample_parse sample_embed
         (sample_env (JSON_stringify_pretty sample_dataset)) new_RagService).

(** A toy embedding model (the length of the text) and similarity measure
    (one over one plus the distance), for concrete runs of the store. *)
Definition sample_embed_text (_ : EmbeddingsConfig) (text : string)
  : completion Z :=
  Normal (Z.of_nat (String.length text)).

Definition sample_similarity (a b : Z) : Q :=
  Qmake 1 (Z.to_pos (1 + Z.abs (a - b))).

(** A dataset with a [null] entry, and a parser that also knows its text. *)
Definition holed_dataset : json Z := JArr [ sample_record; JNull ].

Definition holed_parse (text : string) : completion (json Z) :=
  if String.eqb text (JSON_stringify_pretty holed_dataset)
  then Normal holed_dataset
  else sample_parse text.

(** A store that answers with one document whose source label is empty. *)
Definition unlabelled_document : Document Z :=
  mkDocument "nama: Toko Roti"
    (Some [ ("source", JStr ""); ("index", JNum 7%Z) ]).

Definition unlabelled_search (_ : EmbeddingsConfig) (vs : list (Document Z))
    (k : nat) (_ : string) : completion (list (Document Z)) :=
  Normal [unlabelled_document].

Definition failing_search (_ : EmbeddingsConfig) (vs : list (Document Z))
    (k : nat) (_ : string) : completion (list (Document Z)) :=
  Throw (new_Error "429 Too Many Requests").

(** ** White space at the head of a byte list

    [starts_clean backwards l] holds when no white-space encoding sits at
    the head of [l], read in the direction [strip] reads it. *)

Definition starts_clean (backwards : bool) (l : list ascii) : bool :=
  match l with
  | [] => true
  | c1 :: r1 =>
      negb (ws1 c1)
      && match r1 with
         | [] => true
         | c2 :: r2 =>
             negb (if backwards then ws2 c2 c1 else ws2 c1 c2)
             && match r2 with
                | [] => true
                | c3 :: _ =>
                    negb (if backwards then ws3 c3 c2 c1 else ws3 c1 c2 c3)
                end
         end
  end.

(** * Properties of the document construction *)

Section DocumentProperties.
Context {number : Type} `{JsNumber number}.

Local Abbreviation value := (json number).
Local Abbreviation object := (list (string * json number)).
Local Abbreviation Doc := (Document number).

Lemma get_property_not_null (item : value) (field : string) :
  item <> JNull -> get_property item field = Normal (item_field item field).
Proof.
  destruct item; simpl; intros Hn; try reflexivity. congruence.
Qed.

Lemma string_test_holds_text (item : value) (field : string) :
  ToBoolean (item_field item field)
    && String.eqb (typeof (item_field item field)) "string"
  = holds_text item field.
Proof.
  unfold holds_text.
  destruct (item_field item field) as [[ | b | n | s | items | props]|];
    simpl; try reflexivity;
    first [apply andb_false_r | apply andb_true_r].
Qed.

Lemma content_loop (item : value) :
  item <> JNull ->
  forall fields i acc,
    forEach_from i fields
      (fun field (_ : nat) (contentParts : list string) =>
         v <~ get_property item field ;;
         if ToBoolean v && String.eqb (typeof v) "string"
         then Normal (contentParts ++ [field +:+ ": " +:+ ToString v])
         else Normal contentParts)
      acc
    = Normal (acc ++ map (content_line item) (filter (holds_text item) fields)).
Proof.
  intros Hn. induction fields as [|f fields IH]; intros i acc;
    cbn [forEach_from filter map].
  - now rewrite app_nil_r.
  - rewrite (get_property_not_null _ _ Hn). cbn [cbind].
    rewrite string_test_holds_text.
    destruct (holds_text item f); cbn [cbind]; rewrite IH; [|reflexivity].
    cbn [map]. unfold content_line at 2. now rewrite <- app_assoc.
Qed.

Lemma extractContentFromItem_text (item : value) :
  item <> JNull ->
  extractContentFromItem item = Normal (content_text holds_text item).
Proof.
  intros Hn. unfold extractContentFromItem, forEach, content_text.
  rewrite (content_loop item Hn). cbn [cbind app].
  destruct (filter (holds_text item) contentFields) as [|f fs]; reflexivity.
Qed.

Lemma get_own_app (a b : object) (key : string) :
  get_own (a ++ b) key
  = match get_own a key with Some v => Some v | None => get_own b key end.
Proof.
  induction a as [|[k v] a IH]; simpl; [reflexivity|].
  destruct (String.eqb k key); [reflexivity | apply IH].
Qed.

Lemma set_own_fresh (props : object) (key : string) (v : value) :
  get_own props key = None -> set_own props key v = props ++ [(key, v)].
Proof.
  induction props as [|[k w] props IH]; simpl; [reflexivity|].
  destruct (String.eqb k key); [discriminate|].
  intros Hk. now rewrite IH.
Qed.

Lemma get_own_None_iff (props : object) (key : string) :
  get_own props key = None <-> ~ In key (map fst props).
Proof.
  induction props as [|[k w] props IH]; simpl; [tauto|].
  destruct (String.eqb_spec k key) as [->|Hne].
  - split; [discriminate | tauto].
  - rewrite IH. tauto.
Qed.

Lemma copied_fields_keys (copied : option value -> bool) (item : value) fields key :
  In key (map fst (copied_fields copied item fields)) -> In key fields.
Proof.
  induction fields as [|f fields IH]; simpl; [tauto|].
  rewrite map_app, in_app_iff. intros [Hin | Hin]; [left | right; auto].
  destruct (item_field item f) as [v|]; simpl in Hin; [|tauto].
  destruct (copied (Some v)); simpl in Hin; tauto.
Qed.

Lemma copied_fields_NoDup (copied : option value -> bool) (item : value) fields :
  NoDup fields -> NoDup (map fst (copied_fields copied item fields)).
Proof.
  induction 1 as [|f fields Hf Hnd IH]; simpl; [constructor|].
  rewrite map_app.
  destruct (item_field item f) as [v|]; simpl; [|exact IH].
  destruct (copied (Some v)); simpl; [|exact IH].
  constructor; [|exact IH].
  intros Hin. apply Hf. eapply copied_fields_keys; eauto.
Qed.

Lemma metadata_loop (item : value) :
  item <> JNull ->
  forall fields i acc,
    NoDup fields ->
    (forall f, In f fields -> get_own acc f = None) ->
    forEach_from i fields
      (fun field (_ : nat) (metadata : object) =>
         v <~ get_property item field ;;
         match v with
         | Some w =>
             if ToBoolean (Some w) then Normal (set_own metadata field w)
             else Normal metadata
         | None => Normal metadata
         end)
      acc
    = Normal (acc ++ copied_fields ToBoolean item fields).
Proof.
  intros Hn. induction fields as [|f fields IH]; intros i acc Hnd Hfresh;
    cbn [forEach_from copied_fields flat_map].
  - now rewrite app_nil_r.
  - inversion Hnd as [|? ? Hf Hnd']; subst.
    rewrite (get_property_not_null _ _ Hn). cbn [cbind].
    assert (Hrest : forall g, In g fields -> get_own acc g = None)
      by (intros g Hg; apply Hfresh; now right).
    destruct (item_field item f) as [w|] eqn:E; [|now apply IH].
    destruct (ToBoolean (Some w)) eqn:Ew; cbn [cbind]; [|now apply IH].
    rewrite set_own_fresh by (apply Hfresh; now left).
    rewrite IH; [now rewrite <- app_assoc | assumption |].
    intros g Hg. rewrite get_own_app, (Hrest g Hg). cbn [get_own].
    destruct (String.eqb_spec f g) as [->|]; [contradiction | reflexivity].
Qed.

Lemma spread_fresh (source target : object) :
  NoDup (map fst source) ->
  (forall key, In key (map fst source) -> get_own target key = None) ->
  spread target source = target ++ source.
Proof.
  unfold spread. revert target.
  induction source as [|[k v] source IH]; intros target Hnd Hfresh; simpl.
  - now rewrite app_nil_r.
  - simpl in Hnd. inversion Hnd as [|? ? Hk Hnd']; subst.
    rewrite set_own_fresh by (apply Hfresh; now left).
    rewrite IH; [now rewrite <- app_assoc | assumption |].
    intros key Hkey. rewrite get_own_app, (Hfresh key) by (now right). simpl.
    destruct (String.eqb_spec k key) as [->|]; [contradiction | reflexivity].
Qed.

Lemma metadataFields_NoDup : NoDup metadataFields.
Proof.
  unfold metadataFields.
  repeat (constructor; [simpl; intuition discriminate|]). constructor.
Qed.

Lemma extractMetadataFromItem_fields (item : value) :
  item <> JNull ->
  extractMetadataFromItem item = Normal (copied_fields ToBoolean item metadataFields).
Proof.
  intros Hn. unfold extractMetadataFromItem, forEach.
  rewrite (metadata_loop item Hn); [reflexivity | apply metadataFields_NoDup |].
  reflexivity.
Qed.

Lemma make_metadata_object (index : nat) (item : value) :
  make_metadata index (copied_fields ToBoolean item metadataFields)
  = metadata_object ToBoolean index item.
Proof.
  unfold make_metadata, metadata_object.
  rewrite spread_fresh; [reflexivity | apply copied_fields_NoDup, metadataFields_NoDup |].
  intros key Hkey. apply copied_fields_keys in Hkey.
  simpl in Hkey. simpl.
  repeat (destruct Hkey as [<- | Hkey]; [reflexivity|]). contradiction.
Qed.

Lemma make_document_for (item : value) (index : nat) :
  item <> JNull -> make_document item index = Normal (document_for item index).
Proof.
  intros Hn. unfold make_document, document_for.
  rewrite (extractContentFromItem_text item Hn). cbn [cbind].
  rewrite (extractMetadataFromItem_fields item Hn). cbn [cbind].
  now rewrite make_metadata_object.
Qed.

Lemma documents_loop (items : list value) :
  Forall (fun item => item <> JNull) items ->
  forall i acc,
    forEach_from i items
      (fun item index (documents : list Doc) =>
         doc <~ make_document item index ;;
         Normal (documents ++ [doc]))
      acc
    = Normal (acc ++ mapi_from i (fun item index => document_for item index) items).
Proof.
  induction 1 as [|item items Hn Hall IH]; intros i acc;
    cbn [forEach_from mapi_from].
  - now rewrite app_nil_r.
  - rewrite (make_document_for item i Hn). cbn [cbind].
    rewrite IH. now rewrite <- app_assoc.
Qed.

Lemma mapi_from_length {A B} (f : A -> nat -> B) (l : list A) (i : nat) :
  length (mapi_from i f l) = length l.
Proof.
  revert i. induction l as [|x l IH]; intros i; simpl; [reflexivity|].
  now rewrite IH.
Qed.

Lemma mapi_from_nth {A B} (f : A -> nat -> B) (l : list A) (i n : nat) (x : A) :
  nth_error l n = Some x -> nth_error (mapi_from i f l) n = Some (f x (i + n)).
Proof.
  revert i n. induction l as [|y l IH]; intros i [|n]; simpl; try discriminate.
  - intros [= ->]. now rewrite Nat.add_0_r.
  - intros Hx. rewrite (IH (S i) n Hx). f_equal. f_equal. lia.
Qed.

(** Every document built from the dataset carries the source label. *)
Lemma document_for_source_usable (item : value) (index : nat) :
  source_usable (document_for item index).
Proof. right. reflexivity. Qed.

Lemma make_document_source_usable (item : value) (index : nat) (d : Doc) :
  make_document item index = Normal d -> source_usable d.
Proof.
  destruct item; try discriminate;
    rewrite make_document_for by discriminate;
    intros [= <-]; apply document_for_source_usable.
Qed.

Lemma documents_loop_source_usable (items : list value) :
  forall i acc docs,
    Forall source_usable acc ->
    forEach_from i items
      (fun item index (documents : list Doc) =>
         doc <~ make_document item index ;;
         Normal (documents ++ [doc]))
      acc
    = Normal docs ->
    Forall source_usable docs.
Proof.
  induction items as [|item items IH]; intros i acc docs Hacc;
    cbn [forEach_from].
  - now intros [= <-].
  - destruct (make_document item i) as [d|e] eqn:Ed; cbn [cbind]; [|discriminate].
    apply IH. apply Forall_app. split; [assumption|].
    constructor; [|constructor]. eapply make_document_source_usable; eauto.
Qed.

Lemma documents_of_source_usable (jsonData : value) (docs : list Doc) :
  documents_of jsonData = Normal docs -> Forall source_usable docs.
Proof.
  destruct jsonData as [ | b | n | s | items | props];
    try (unfold documents_of;
         match goal with
         | |- context [make_document ?v 0] =>
             destruct (make_document v 0) as [d|e] eqn:Ed
         end; cbn [cbind app]; [|discriminate];
         intros [= <-]; constructor; [|constructor];
         eapply make_document_source_usable; eauto).
  unfold documents_of, forEach.
  apply documents_loop_source_usable. constructor.
Qed.

End DocumentProperties.

(** * Document text and metadata *)

Section DocumentClaims.
Context {number : Type} `{JsNumber number}.

Local Abbreviation value := (json number).
Local Abbreviation Doc := (Document number).

(** C1 (as amended): for every record other than [null], the document text
    consists of one line "<field>: <value>" for each field of the content
    allow-list whose value in the record is a non-empty string, in the
    allow-list's order, joined by newlines; when no allow-listed field holds
    a non-empty string, the text is the pretty-printed JSON of the record. *)
Theorem document_text_of_record (item : value) :
  item <> JNull ->
  extractContentFromItem item = Normal (content_text holds_text item).
Proof.
  intros Hn. unfold extractContentFromItem, forEach.
  rewrite (content_loop item Hn). cbn [cbind app]. unfold content_text.
  destruct (filter (holds_text item) contentFields) as [|f fs]; reflexivity.
Qed.

(** C2 (as amended): when no record of the dataset array is [null], every
    record gets a document at its own position, and the metadata of the
    document at position [i] is exactly the source label, the index [i] and
    a copy of each field of the metadata allow-list whose value in the
    record is truthy; it has no other keys. *)
Theorem metadata_of_record (items : list value) :
  Forall (fun item => item <> JNull) items ->
  exists docs,
    documents_of (JArr items) = Normal docs
    /\ length docs = length items
    /\ forall i item,
         nth_error items i = Some item ->
         exists d,
           nth_error docs i = Some d
           /\ metadata d = Some (metadata_object ToBoolean i item)
           /\ forall key,
                In key (map fst (metadata_object ToBoolean i item)) ->
                key = "source" \/ key = "index" \/ In key metadataFields.
Proof.
  intros Hall.
  exists (mapi_from 0 (fun item index => document_for item index) items).
  split; [|split].
  - unfold documents_of, forEach. now rewrite (documents_loop items Hall).
  - apply mapi_from_length.
  - intros i item Hi. exists (document_for item i). split; [|split].
    + now rewrite (mapi_from_nth _ _ 0 i item Hi).
    + reflexivity.
    + intros key. cbn [metadata_object map fst In].
      intros [<- | [<- | Hkey]]; [tauto | tauto |].
      right; right. eapply copied_fields_keys; eauto.
Qed.

End DocumentClaims.

(** * Properties of the ask-question path *)

(** ** The [Set] of source strings, and the prompt *)

Lemma Set_has_In (members : list string) (x : string) :
  Set_has members x = true <-> In x members.
Proof.
  induction members as [|y members IH]; simpl; [split; [discriminate | tauto]|].
  rewrite orb_true_iff, IH.
  destruct (String.eqb_spec y x); intuition congruence.
Qed.

Lemma new_Set_snoc (l : list string) (x : string) :
  new_Set (l ++ [x]) = Set_add (new_Set l) x.
Proof. unfold new_Set. now rewrite fold_left_app. Qed.

Lemma new_Set_remove_duplicates (l : list string) :
  new_Set l = remove_duplicates l.
Proof.
  unfold remove_duplicates.
  induction l as [|x l IH] using rev_ind; [reflexivity|].
  rewrite new_Set_snoc, IH, rev_app_distr. cbn [rev app nodup].
  unfold Set_add.
  destruct (in_dec string_dec x (rev l)) as [Hin | Hnin].
  - replace (Set_has (rev (nodup string_dec (rev l))) x) with true; [reflexivity|].
    symmetry. apply Set_has_In. rewrite <- in_rev. now apply nodup_In.
  - destruct (Set_has (rev (nodup string_dec (rev l))) x) eqn:E; [|reflexivity].
    apply Set_has_In in E. rewrite <- in_rev in E. apply nodup_In in E.
    contradiction.
Qed.

Lemma remove_duplicates_NoDup (l : list string) : NoDup (remove_duplicates l).
Proof. unfold remove_duplicates. apply NoDup_rev, NoDup_nodup. Qed.

Lemma remove_duplicates_In (l : list string) (x : string) :
  In x (remove_duplicates l) <-> In x l.
Proof.
  unfold remove_duplicates. rewrite <- in_rev, nodup_In, <- in_rev. tauto.
Qed.

Lemma append_empty_r (s : string) : s +:+ "" = s.
Proof. induction s as [|c s IH]; simpl; [reflexivity | now rewrite IH]. Qed.

Lemma format_promptTemplate (query context : string) :
  format promptTemplate [("question", query); ("context", context)]
  = template_head +:+ context +:+ template_middle +:+ query +:+ template_tail.
Proof.
  unfold promptTemplate. cbn [format lookup_input].
  replace (String.eqb "question" "context") with false by reflexivity.
  replace (String.eqb "context" "context") with true by reflexivity.
  replace (String.eqb "question" "question") with true by reflexivity.
  now rewrite append_empty_r.
Qed.

Lemma filter_snoc_false {A} (p : A -> bool) (l : list A) (x : A) :
  p x = false -> filter p (l ++ [x]) = filter p l.
Proof. intros Hx. rewrite filter_app. simpl. rewrite Hx. apply app_nil_r. Qed.


Section ServiceProperties.
Context {number : Type} `{JsNumber number}.
Context {Vectors : Type}.

Local Abbreviation value := (json number).
Local Abbreviation Doc := (Document number).

Variable JSON_parse : string -> completion value.
Variable embed_documents : EmbeddingsConfig -> list Doc -> completion Vectors.
Variable similarity_search :
  EmbeddingsConfig -> Vectors -> nat -> string -> completion (list Doc).
Variable chat_completion : ChatConfig -> string -> completion string.

Lemma chain_call_run (chain : RetrievalQAChain Vectors) (query : string) :
  chain_call similarity_search chat_completion chain query
  = match retrieval similarity_search chain query with
    | Throw e => ([Retrieve query], Throw e)
    | Normal docs =>
        match generation chat_completion chain query docs with
        | Throw e =>
            ([Retrieve query; Generate (composed_prompt chain query docs)], Throw e)
        | Normal text =>
            ([Retrieve query; Generate (composed_prompt chain query docs)],
             Normal (answered chain docs text))
        end
    end.
Proof.
  unfold chain_call, getRelevantDocuments, retrieval, generation,
    composed_prompt, context_block.
  cbn [bind emit lift ret app].
  destruct (similarity_search _ _ _ query) as [docs|e]; [|reflexivity].
  cbn [bind emit lift ret app].
  destruct (chat_completion _ _) as [text|e]; reflexivity.
Qed.

Lemma askQuestion_not_initialized (this : RagService Vectors) (query : string) :
  qaChain this = None ->
  askQuestion similarity_search chat_completion this query
  = ([LogError "Error processing query:" (new_Error "RAG system is not initialized")],
     Throw (query_failure (new_Error "RAG system is not initialized"))).
Proof.
  intros Hq. unfold askQuestion, askQuestion_body. now rewrite Hq.
Qed.

Lemma askQuestion_run (this : RagService Vectors) (chain : RetrievalQAChain Vectors)
    (query : string) :
  qaChain this = Some chain ->
  askQuestion similarity_search chat_completion this query
  = match retrieval similarity_search chain query with
    | Throw e =>
        ([LogInfo ("Processing query: " +:+ query); Retrieve query;
          LogError "Error processing query:" e],
         Throw (query_failure e))
    | Normal docs =>
        match generation chat_completion chain query docs with
        | Throw e =>
            ([LogInfo ("Processing query: " +:+ query); Retrieve query;
              Generate (composed_prompt chain query docs);
              LogError "Error processing query:" e],
             Throw (query_failure e))
        | Normal text =>
            ([LogInfo ("Processing query: " +:+ query); Retrieve query;
              Generate (composed_prompt chain query docs)],
             Normal (mkResponse (choose_answer (answered chain docs text))
                       (new_Set (collect_sources (answered chain docs text)))))
        end
    end.
Proof.
  intros Hq. unfold askQuestion, askQuestion_body. rewrite Hq.
  cbn [bind emit]. rewrite chain_call_run.
  destruct (retrieval similarity_search chain query) as [docs|e]; [|reflexivity].
  destruct (generation chat_completion chain query docs) as [text|e]; reflexivity.
Qed.

Lemma source_entry_rendered (doc : Doc) (index : nat) :
  source_usable doc -> source_entry doc index = rendered_source doc index.
Proof.
  unfold source_usable, source_entry, rendered_source, metadata_field.
  destruct (metadata doc) as [md|]; [|reflexivity].
  destruct (get_own md "source") as [v|]; [|reflexivity].
  intros [Habs | Htrue]; [discriminate|]. now rewrite Htrue.
Qed.

Lemma push_sources_rendered (docs : list Doc) :
  Forall source_usable docs ->
  forall index acc,
    push_sources docs index acc = acc ++ mapi_from index rendered_source docs.
Proof.
  induction 1 as [|doc docs Hd Hall IH]; intros index acc; cbn [push_sources mapi_from].
  - now rewrite app_nil_r.
  - rewrite IH, (source_entry_rendered doc index Hd). now rewrite <- app_assoc.
Qed.

Lemma collect_sources_rendered (result : ChainValues) :
  Forall source_usable (source_documents result) ->
  collect_sources result = mapi_from 0 rendered_source (source_documents result).
Proof.
  unfold collect_sources, source_documents.
  destruct (cv_sourceDocuments result) as [docs|]; [|reflexivity].
  intros Hall. now rewrite (push_sources_rendered docs Hall).
Qed.

Lemma documents_of_single (v : value) :
  is_array v = false -> v <> JNull ->
  documents_of v = Normal [document_for v 0].
Proof.
  intros Harr Hn.
  destruct v; try discriminate; try congruence;
    unfold documents_of; rewrite make_document_for by discriminate; reflexivity.
Qed.

Lemma source_entry_label (doc : Doc) (index : nat) :
  source_entry doc index = source_label doc index.
Proof.
  unfold source_entry, source_label, metadata_field.
  destruct (metadata doc) as [md|]; reflexivity.
Qed.

Lemma push_sources_labels (docs : list Doc) :
  forall index acc,
    push_sources docs index acc = acc ++ mapi_from index source_label docs.
Proof.
  induction docs as [|doc docs IH]; intros index acc;
    cbn [push_sources mapi_from].
  - now rewrite app_nil_r.
  - rewrite IH, source_entry_label. now rewrite <- app_assoc.
Qed.

Lemma collect_sources_labels (result : ChainValues) :
  collect_sources result = mapi_from 0 source_label (source_documents result).
Proof.
  unfold collect_sources, source_documents.
  destruct (cv_sourceDocuments result) as [docs|]; [|reflexivity].
  now rewrite push_sources_labels.
Qed.

(** * The claims about the service *)


(** C5 (as amended): when retrieval and generation succeed, the answer is
    the text generated for the composed prompt, unless that text is empty,
    in which case the answer is the fixed message that no answer was
    found. *)
Theorem answer_of_generation (this : RagService Vectors)
    (chain : RetrievalQAChain Vectors) (query : string)
    (docs : list Doc) (text : string) :
  qaChain this = Some chain ->
  retrieval similarity_search chain query = Normal docs ->
  chat_completion (chain_llm chain) (composed_prompt chain query docs) = Normal text ->
  exists r,
    snd (askQuestion similarity_search chat_completion this query) = Normal r
    /\ answer r = if String.eqb text "" then noAnswerMessage else text.
Proof.
  intros Hq Hdocs Htext.
  rewrite (askQuestion_run this chain query Hq), Hdocs.
  unfold generation. rewrite Htext. eexists. split; [reflexivity|].
  cbn [answer choose_answer answered cv_text cv_answer string_truthy].
  now destruct (String.eqb text "").
Qed.

(** C6 (as amended): for every request handled by an initialized service,
    the question of the request body with surrounding white space trimmed is
    the retrieval query and, once documents are retrieved, the string
    substituted for the question in the fixed prompt template. *)
Theorem query_uses_trimmed_question (ragService : RagService Vectors)
    (chain : RetrievalQAChain Vectors) (queryDto : CreateQueryDto) :
  qaChain ragService = Some chain ->
  chain_prompt chain = promptTemplate ->
  exists rest,
    fst (RagController_query similarity_search chat_completion ragService queryDto)
    = LogInfo ("Processing query: " +:+ trim (question queryDto))
        :: Retrieve (trim (question queryDto)) :: rest
    /\ forall docs,
         retrieval similarity_search chain (trim (question queryDto)) = Normal docs ->
         exists rest',
           rest
           = Generate (template_head +:+ context_block docs +:+ template_middle
                         +:+ trim (question queryDto) +:+ template_tail)
               :: rest'.
Proof.
  intros Hq Hprompt. unfold RagController_query.
  rewrite (askQuestion_run ragService chain _ Hq).
  assert (Hp : forall docs : list Doc,
             composed_prompt chain (trim (question queryDto)) docs
             = template_head +:+ context_block docs +:+ template_middle
                 +:+ trim (question queryDto) +:+ template_tail)
    by (intros docs; unfold composed_prompt; rewrite Hprompt;
        apply format_promptTemplate).
  destruct (retrieval similarity_search chain (trim (question queryDto)))
    as [docs|e].
  - destruct (generation chat_completion chain (trim (question queryDto)) docs)
      as [text|e]; eexists; (split; [reflexivity|]);
      intros docs' [= <-]; rewrite Hp; eexists; reflexivity.
  - eexists. split; [reflexivity|]. discriminate.
Qed.

(** C7: invoked while the QA chain has not been built, askQuestion fails
    with the error "Failed to process query: RAG system is not initialized";
    it logs that error and makes no retrieval or generation call. *)
Theorem askQuestion_before_initialization (this : RagService Vectors)
    (query : string) :
  qaChain this = None ->
  snd (askQuestion similarity_search chat_completion this query)
  = Throw (new_Error "Failed to process query: RAG system is not initialized")
  /\ fst (askQuestion similarity_search chat_completion this query)
     = [LogError "Error processing query:"
          (new_Error "RAG system is not initialized")]
  /\ count is_provider_call
       (fst (askQuestion similarity_search chat_completion this query)) = 0.
Proof.
  intros Hq. rewrite (askQuestion_not_initialized this query Hq).
  repeat split.
Qed.

(** C8: every error raised while askQuestion processes a query, be it the
    missing chain, the retriever or the model, is caught, logged once and
    re-raised as "Failed to process query: <original message>"; the
    retriever and the model are called at most once each and no response is
    produced. *)
Theorem askQuestion_wraps_errors (this : RagService Vectors) (query : string)
    (e : Error) :
  raised_by similarity_search chat_completion this query e ->
  exists t0,
    askQuestion similarity_search chat_completion this query
    = (t0 ++ [LogError "Error processing query:" e],
       Throw (new_Error ("Failed to process query: " +:+ message e)))
    /\ count is_LogError t0 = 0
    /\ count is_Retrieve t0 <= 1
    /\ count is_Generate t0 <= 1.
Proof.
  intros [Hq | chain e' Hq Hr | chain docs e' Hq Hr Hg].
  - exists []. rewrite (askQuestion_not_initialized this query Hq).
    cbn. repeat split; lia.
  - exists [LogInfo ("Processing query: " +:+ query); Retrieve query].
    rewrite (askQuestion_run this chain query Hq), Hr.
    cbn. repeat split; lia.
  - exists [LogInfo ("Processing query: " +:+ query); Retrieve query;
            Generate (composed_prompt chain query docs)].
    rewrite (askQuestion_run this chain query Hq), Hr, Hg.
    cbn. repeat split; lia.
Qed.

(** C9 (as amended): getInsights runs askQuestion on the fixed insights
    prompt and nothing else: it returns the very result askQuestion
    returns, after the same provider calls; when askQuestion fails,
    getInsights logs the error and fails with "Failed to generate insights:
    <message>". *)
Theorem insights_reuse_askQuestion (this : RagService Vectors) :
  getInsights similarity_search chat_completion this
  = match askQuestion similarity_search chat_completion this insightsPrompt with
    | (t, Normal r) => (t, Normal r)
    | (t, Throw e) =>
        (t ++ [LogError "Error getting insights:" e],
         Throw (new_Error ("Failed to generate insights: " +:+ message e)))
    end
  /\ filter is_provider_call
       (fst (getInsights similarity_search chat_completion this))
     = filter is_provider_call
         (fst (askQuestion similarity_search chat_completion this insightsPrompt)).
Proof.
  unfold getInsights.
  destruct (askQuestion similarity_search chat_completion this insightsPrompt)
    as [t [r|e]]; cbn [bind ret try_catch emit throw fst].
  - rewrite app_nil_r. split; reflexivity.
  - cbn [app]. split; [reflexivity|].
    now rewrite filter_snoc_false.
Qed.

(** C10 (as amended): when the dataset file parses to a value that is
    neither an array nor [null], loadDocuments succeeds with exactly one
    document, built from that value as a single record, whose metadata index
    is 0; with an API key configured and the indexing step succeeding,
    initialization completes and builds the QA chain. *)
Theorem single_value_dataset (env : Environment) (text : string) (v : value) :
  dataset_file env = Some text ->
  JSON_parse text = Normal v ->
  is_array v = false ->
  v <> JNull ->
  snd (loadDocuments JSON_parse env) = Normal [document_for v 0]
  /\ make_document v 0 = Normal (document_for v 0)
  /\ metadata_field (document_for v 0) "index" = Some (JNum (num_of_nat 0))
  /\ forall (this : RagService Vectors) key vs,
       GEMINI_API_KEY env = Some key ->
       key <> "" ->
       embed_documents (mkEmbeddings key "embedding-001") [document_for v 0]
       = Normal vs ->
       snd (snd (initializeRag JSON_parse embed_documents env this)) = Normal tt
       /\ qaChain (fst (initializeRag JSON_parse embed_documents env this))
          = Some (mkChain (mkChat key "gemini-2.0-flash")
                    (mkRetriever (mkStore (mkEmbeddings key "embedding-001") vs) 5)
                    promptTemplate true).
Proof.
  intros Hfile Hparse Harr Hn.
  assert (Hload : loadDocuments JSON_parse env
                  = ([LogInfo ("Loaded " +:+ num_to_string (num_of_nat 1)
                                 +:+ " documents from JSON file")],
                     Normal [document_for v 0])).
  { unfold loadDocuments. rewrite Hfile. cbn [bind lift].
    rewrite Hparse, (documents_of_single v Harr Hn). reflexivity. }
  split; [now rewrite Hload|].
  split; [now apply make_document_for|].
  split; [reflexivity|].
  intros this key vs Hkey Hne Hembed.
  unfold initializeRag. rewrite Hkey, Hload.
  cbn [string_truthy]. destruct (String.eqb_spec key "") as [->|_]; [congruence|].
  cbn [negb]. unfold fromDocuments. cbn [bind emit lift ret app].
  rewrite Hembed. split; reflexivity.
Qed.

End ServiceProperties.

(** * Concrete runs *)

Lemma sample_service_chain : qaChain sample_service = Some sample_chain.
Proof. vm_compute. reflexivity. Qed.

Lemma sample_retrieval (query : string) :
  retrieval sample_search sample_chain query = Normal sample_documents.
Proof. reflexivity. Qed.

Lemma document_text_witness :
  sample_record <> JNull
  /\ extractContentFromItem sample_record
     = Normal (content_text holds_text sample_record).
Proof.
  split; [discriminate|].
  apply (document_text_of_record sample_record). discriminate.
Defined.

(** The record holds the number 3 under the allow-listed field "type"; the
    text has no line for it. *)
Lemma document_text_counterexample :
  field_present sample_record "type" = true
  /\ extractContentFromItem sample_record
     = Normal ("nama: Kopi Kita" +:+ LF +:+ "kategori: Kuliner")
  /\ content_text field_present sample_record
     = "nama: Kopi Kita" +:+ LF +:+ "kategori: Kuliner" +:+ LF +:+ "type: 3"
  /\ extractContentFromItem sample_record
     <> Normal (content_text field_present sample_record).
Proof.
  split; [reflexivity|]. split; [vm_compute; reflexivity|].
  split; [vm_compute; reflexivity|]. vm_compute. discriminate.
Qed.

Lemma metadata_witness :
  Forall (fun item : json Z => item <> JNull) [sample_record; JStr "catatan"]
  /\ exists docs,
       documents_of (JArr [sample_record; JStr "catatan"]) = Normal docs
       /\ length docs = 2.
Proof.
  assert (Hall : Forall (fun item : json Z => item <> JNull)
                   [sample_record; JStr "catatan"])
    by (repeat constructor; discriminate).
  split; [exact Hall|].
  destruct (metadata_of_record [sample_record; JStr "catatan"] Hall)
    as (docs & Hdocs & Hlen & _).
  exists docs. split; assumption.
Defined.

(** The record holds 0 under the allow-listed field "id"; the metadata has
    no such key. *)
Lemma metadata_counterexample :
  exists d,
    documents_of (JArr [sample_record]) = Normal [d]
    /\ item_field sample_record "id" = Some (JNum 0%Z)
    /\ metadata_field d "id" = None
    /\ get_own (metadata_object always_copied 0 sample_record) "id"
       = Some (JNum 0%Z)
    /\ metadata d <> Some (metadata_object always_copied 0 sample_record).
Proof.
  exists (document_for sample_record 0).
  split; [vm_compute; reflexivity|]. split; [reflexivity|].
  split; [reflexivity|]. split; [reflexivity|].
  vm_compute. discriminate.
Qed.



Lemma answer_witness :
  exists r,
    snd (askQuestion sample_search sample_chat sample_service sample_question)
    = Normal r
    /\ answer r = "UMKM adalah usaha mikro, kecil, dan menengah.".
Proof.
  destruct (answer_of_generation sample_search sample_chat sample_service
              sample_chain sample_question sample_documents
              "UMKM adalah usaha mikro, kecil, dan menengah.")
    as (r & Hr & Ha).
  - vm_compute. reflexivity.
  - reflexivity.
  - reflexivity.
  - exists r. split; [exact Hr|]. rewrite Ha. reflexivity.
Defined.

(** The model generates the empty text; the answer is the fixed message. *)
Lemma answer_counterexample :
  exists r,
    silent_chat (chain_llm sample_chain)
      (composed_prompt sample_chain sample_question sample_documents)
    = Normal ""
    /\ snd (askQuestion sample_search silent_chat sample_service sample_question)
       = Normal r
    /\ answer r = "Tidak dapat menemukan jawaban yang sesuai."
    /\ answer r <> "".
Proof.
  eexists. split; [reflexivity|]. split; [vm_compute; reflexivity|].
  split; [reflexivity | discriminate].
Qed.

Lemma trimmed_question_witness :
  exists rest,
    fst (RagController_query sample_search sample_chat sample_service
           sample_request)
    = LogInfo "Processing query: Apa itu UMKM?" :: Retrieve "Apa itu UMKM?" :: rest.
Proof.
  destruct (query_uses_trimmed_question sample_search sample_chat sample_service
              sample_chain sample_request)
    as (rest & Ht & _).
  - vm_compute. reflexivity.
  - reflexivity.
  - exists rest. exact Ht.
Defined.

(** The request carries a question with surrounding blanks; the retrieval
    query and the question in the prompt are the question without them. *)
Lemma raw_question_counterexample :
  fst (RagController_query sample_search sample_chat sample_service sample_request)
  = [ LogInfo "Processing query: Apa itu UMKM?";
      Retrieve "Apa itu UMKM?";
      Generate (template_head +:+ context_block sample_documents
                  +:+ template_middle +:+ "Apa itu UMKM?" +:+ template_tail) ]
  /\ question sample_request <> "Apa itu UMKM?"
  /\ ~ In (Retrieve (question sample_request))
         (fst (RagController_query sample_search sample_chat sample_service
                 sample_request)).
Proof.
  assert (Ht : fst (RagController_query sample_search sample_chat sample_service
                      sample_request)
               = [ LogInfo "Processing query: Apa itu UMKM?";
                   Retrieve "Apa itu UMKM?";
                   Generate (template_head +:+ context_block sample_documents
                               +:+ template_middle +:+ "Apa itu UMKM?"
                               +:+ template_tail) ])
    by (vm_compute; reflexivity).
  split; [exact Ht|]. split; [discriminate|].
  rewrite Ht. intros [Hin | [Hin | [Hin | []]]]; discriminate.
Qed.

Lemma not_initialized_witness :
  qaChain (new_RagService (Vectors := list (Document Z))) = None
  /\ snd (askQuestion sample_search sample_chat new_RagService sample_question)
     = Throw (new_Error "Failed to process query: RAG system is not initialized").
Proof.
  split; [reflexivity|].
  apply (askQuestion_before_initialization sample_search sample_chat
           new_RagService sample_question).
  reflexivity.
Defined.

Lemma provider_error_witness :
  exists t0,
    askQuestion sample_search failing_chat sample_service sample_question
    = (t0 ++ [LogError "Error processing query:"
                (new_Error "503 Service Unavailable")],
       Throw (new_Error "Failed to process query: 503 Service Unavailable")).
Proof.
  destruct (askQuestion_wraps_errors sample_search failing_chat sample_service
              sample_question (new_Error "503 Service Unavailable"))
    as (t0 & Hrun & _).
  - apply (raised_by_generation sample_search failing_chat sample_service
             sample_question sample_chain sample_documents).
    + vm_compute. reflexivity.
    + reflexivity.
    + reflexivity.
  - exists t0. exact Hrun.
Defined.

(** The model fails: askQuestion and getInsights fail with different
    errors, after different logs. *)
Lemma insights_counterexample :
  snd (askQuestion sample_search failing_chat sample_service insightsPrompt)
  = Throw (new_Error "Failed to process query: 503 Service Unavailable")
  /\ snd (getInsights sample_search failing_chat sample_service)
     = Throw (new_Error
                "Failed to generate insights: Failed to process query: 503 Service Unavailable")
  /\ getInsights sample_search failing_chat sample_service
     <> askQuestion sample_search failing_chat sample_service insightsPrompt.
Proof.
  split; [vm_compute; reflexivity|]. split; [vm_compute; reflexivity|].
  intros Heq. apply (f_equal snd) in Heq. vm_compute in Heq. discriminate.
Qed.

Lemma single_value_witness :
  dataset_file (sample_env (JSON_stringify_pretty sample_record))
  = Some (JSON_stringify_pretty sample_record)
  /\ sample_parse (JSON_stringify_pretty sample_record) = Normal sample_record
  /\ is_array sample_record = false
  /\ sample_record <> JNull
  /\ snd (loadDocuments sample_parse
            (sample_env (JSON_stringify_pretty sample_record)))
     = Normal [document_for sample_record 0].
Proof.
  assert (Hparse : sample_parse (JSON_stringify_pretty sample_record)
                   = Normal sample_record) by (vm_compute; reflexivity).
  assert (Hn : sample_record <> JNull) by discriminate.
  repeat (split; [first [reflexivity | assumption]|]).
  apply (single_value_dataset (Vectors := list (Document Z))
           sample_parse sample_embed
           (sample_env (JSON_stringify_pretty sample_record))
           (JSON_stringify_pretty sample_record) sample_record
           eq_refl Hparse eq_refl Hn).
Defined.

(** The dataset file holds [null]: it is not an array, and loading fails. *)
Lemma null_dataset_counterexample :
  sample_parse "null" = Normal JNull
  /\ is_array (JNull : json Z) = false
  /\ loadDocuments sample_parse (sample_env "null")
     = ([LogError "Error loading documents:"
           (new_TypeError "Cannot read properties of null (reading 'nama')")],
        Throw (new_TypeError "Cannot read properties of null (reading 'nama')"))
  /\ snd (snd (initializeRag sample_parse sample_embed (sample_env "null")
                 new_RagService))
     = Throw (new_TypeError "Cannot read properties of null (reading 'nama')").
Proof.
  repeat split; vm_compute; reflexivity.
Qed.

(** * Further properties of the document construction *)

Lemma filter_all_false {A} (p : A -> bool) (l : list A) :
  (forall x, p x = false) -> filter p l = [].
Proof.
  intros Hp. induction l as [|x l IH]; simpl; [reflexivity|].
  now rewrite Hp.
Qed.

Lemma append_nonempty_l (a b : string) : a <> "" -> a +:+ b <> "".
Proof. destruct a; simpl; [congruence | discriminate]. Qed.

Lemma append_nonempty_r (a b : string) : b <> "" -> a +:+ b <> "".
Proof. destruct a; simpl; [tauto | discriminate]. Qed.

Lemma join_cons_nonempty (sep x : string) (xs : list string) :
  x <> "" -> join sep (x :: xs) <> "".
Proof.
  intros Hx. unfold join. cbn [String.concat].
  destruct xs; [exact Hx | now apply append_nonempty_l].
Qed.

Section DocumentEdgeCases.
Context {number : Type} `{JsNumber number}.

Local Abbreviation value := (json number).
Local Abbreviation object := (list (string * json number)).
Local Abbreviation Doc := (Document number).

Variable JSON_parse : string -> completion value.

Lemma documents_loop_null (items : list value) :
  In JNull items ->
  forall i acc,
    forEach_from i items
      (fun item index (documents : list Doc) =>
         doc <~ make_document item index ;;
         Normal (documents ++ [doc]))
      acc
    = Throw (new_TypeError "Cannot read properties of null (reading 'nama')").
Proof.
  induction items as [|item items IH]; intros Hin i acc; [contradiction|].
  cbn [forEach_from].
  destruct item; try reflexivity;
    (destruct Hin as [Heq | Hin]; [discriminate|]);
    rewrite make_document_for by discriminate; cbn [cbind]; now apply IH.
Qed.

(** A [null] entry anywhere in the dataset array makes loading fail with
    the TypeError of the first field read, logged once; no document list is
    produced, whatever the other entries are. *)
Theorem null_entry_fails_loading (env : Environment) (text : string)
    (items : list value) :
  dataset_file env = Some text ->
  JSON_parse text = Normal (JArr items) ->
  In JNull items ->
  loadDocuments JSON_parse env
  = ([LogError "Error loading documents:"
        (new_TypeError "Cannot read properties of null (reading 'nama')")],
     Throw (new_TypeError "Cannot read properties of null (reading 'nama')")).
Proof.
  intros Hfile Hparse Hin. unfold loadDocuments. rewrite Hfile.
  cbn [bind lift]. rewrite Hparse. unfold documents_of, forEach.
  now rewrite (documents_loop_null items Hin).
Qed.

(** A dataset entry that is neither an object nor [null] (a string, a
    number, a boolean or a nested array) becomes a document whose text is
    the pretty-printed JSON of the entry and whose metadata holds the source
    label and the position only. *)
Theorem document_of_plain_value (item : value) (index : nat) :
  item <> JNull ->
  (forall props, item <> JObj props) ->
  make_document item index
  = Normal (mkDocument (JSON_stringify_pretty item)
              (Some [ ("source", JStr "dataset_umkm.json");
                      ("index", JNum (num_of_nat index)) ])).
Proof.
  intros Hn Hobj. rewrite (make_document_for item index Hn).
  assert (Hfield : forall field, item_field item field = None).
  { intros field. destruct item; try reflexivity. now destruct (Hobj props). }
  unfold document_for, content_text, metadata_object.
  rewrite filter_all_false
    by (intros field; unfold holds_text; now rewrite Hfield).
  do 3 f_equal.
  unfold copied_fields. induction metadataFields as [|f fs IH]; [reflexivity|].
  cbn [flat_map]. now rewrite Hfield.
Qed.

(** The text of a document is never empty for an entry that is not a bare
    number: a record always yields at least one line or its JSON. *)
Theorem document_text_nonempty (item : value) :
  item <> JNull ->
  (forall n, item <> JNum n) ->
  exists text, extractContentFromItem item = Normal text /\ text <> "".
Proof.
  intros Hn Hnum. rewrite (extractContentFromItem_text item Hn).
  eexists. split; [reflexivity|]. unfold content_text.
  destruct (filter (holds_text item) contentFields) as [|f fs].
  - unfold JSON_stringify_pretty.
    destruct item as [ | b | n | s | items | props]; try congruence.
    + destruct b; discriminate.
    + discriminate.
    + destruct items; discriminate.
    + destruct props; discriminate.
  - cbn [map]. apply join_cons_nonempty. unfold content_line.
    apply append_nonempty_r. discriminate.
Qed.

Lemma copied_fields_lookup (copied : option value -> bool) (item : value)
    (fields : list string) (key : string) (v : value) :
  get_own (copied_fields copied item fields) key = Some v ->
  In key fields /\ item_field item key = Some v /\ copied (Some v) = true.
Proof.
  induction fields as [|f fields IH]; cbn [copied_fields flat_map];
    [discriminate|].
  rewrite get_own_app.
  destruct (item_field item f) as [w|] eqn:Ef; cbn [get_own].
  - destruct (copied (Some w)) eqn:Ec; cbn [get_own].
    + destruct (String.eqb_spec f key) as [<-|Hne].
      * intros [= <-]. repeat split; [now left | assumption | assumption].
      * intros Hv. destruct (IH Hv) as (Hin & Hrest). split; [now right | exact Hrest].
    + intros Hv. destruct (IH Hv) as (Hin & Hrest). split; [now right | exact Hrest].
  - intros Hv. destruct (IH Hv) as (Hin & Hrest). split; [now right | exact Hrest].
Qed.

(** The metadata of a document built from a dataset entry always carries
    the source label and the entry's position, has no duplicate keys, and
    every other key is an allow-listed field copied with the truthy value
    the entry holds for it; a field of the entry named source or index is
    never read and cannot override them. *)
Theorem metadata_invariant (item : value) (index : nat) (d : Doc) :
  make_document item index = Normal d ->
  exists md,
    metadata d = Some md
    /\ get_own md "source" = Some (JStr "dataset_umkm.json")
    /\ get_own md "index" = Some (JNum (num_of_nat index))
    /\ NoDup (map fst md)
    /\ forall key v,
         get_own md key = Some v ->
         key <> "source" -> key <> "index" ->
         In key metadataFields
         /\ item_field item key = Some v
         /\ ToBoolean (Some v) = true.
Proof.
  intros Hd.
  assert (Hn : item <> JNull) by (intros ->; discriminate).
  rewrite (make_document_for item index Hn) in Hd. injection Hd as <-.
  exists (metadata_object ToBoolean index item).
  split; [reflexivity|]. split; [reflexivity|]. split; [reflexivity|].
  assert (Hkeys : forall key,
             In key (map fst (copied_fields ToBoolean item metadataFields)) ->
             key <> "source" /\ key <> "index").
  { intros key Hkey. apply copied_fields_keys in Hkey.
    split; intros ->; simpl in Hkey; intuition discriminate. }
  split.
  - unfold metadata_object. cbn [map fst].
    constructor.
    + intros [Heq | Hin]; [discriminate|].
      now destruct (Hkeys _ Hin) as [Hs _].
    + constructor.
      * intros Hin. now destruct (Hkeys _ Hin) as [_ Hi].
      * apply copied_fields_NoDup, metadataFields_NoDup.
  - intros key v Hv Hs Hi. unfold metadata_object in Hv. cbn [get_own] in Hv.
    destruct (String.eqb_spec "source" key) as [Heq|_]; [now destruct Hs|].
    destruct (String.eqb_spec "index" key) as [Heq|_]; [now destruct Hi|].
    now apply copied_fields_lookup in Hv.
Qed.

(** The source string rendered for a document built from the dataset is
    "dataset_umkm.json (Document i)" with i the entry's position in the
    dataset, at whatever position the document is retrieved; neither
    fallback of the rendering is ever used for it. *)
Theorem dataset_document_source (item : value) (index position : nat) (d : Doc) :
  make_document item index = Normal d ->
  source_entry d position
  = "dataset_umkm.json (Document " +:+ num_to_string (num_of_nat index) +:+ ")".
Proof.
  intros Hd.
  assert (Hn : item <> JNull) by (intros ->; discriminate).
  rewrite (make_document_for item index Hn) in Hd. injection Hd as <-.
  reflexivity.
Qed.

End DocumentEdgeCases.

(** * Properties of [trim] and of the controller *)

Lemma strip_starts_clean (backwards : bool) (l : list ascii) :
  starts_clean backwards (strip backwards l) = true.
Proof.
  remember (length l) as n eqn:Hlen. revert l Hlen.
  induction n as [n IH] using lt_wf_ind. intros l Hlen.
  destruct l as [|c1 r1]; [reflexivity|]. cbn [strip].
  destruct (ws1 c1) eqn:E1.
  { apply (IH (length r1)); [subst; simpl; lia | reflexivity]. }
  destruct r1 as [|c2 r2]; [cbn [starts_clean]; now rewrite E1|].
  destruct (if backwards then ws2 c2 c1 else ws2 c1 c2) eqn:E2.
  { apply (IH (length r2)); [subst; simpl; lia | reflexivity]. }
  destruct r2 as [|c3 r3]; [cbn [starts_clean]; now rewrite E1, E2|].
  destruct (if backwards then ws3 c3 c2 c1 else ws3 c1 c2 c3) eqn:E3.
  { apply (IH (length r3)); [subst; simpl; lia | reflexivity]. }
  cbn [starts_clean]. now rewrite E1, E2, E3.
Qed.

Lemma strip_of_clean (backwards : bool) (l : list ascii) :
  starts_clean backwards l = true -> strip backwards l = l.
Proof.
  destruct l as [|c1 r1]; [reflexivity|]. cbn [starts_clean strip].
  destruct (ws1 c1); [discriminate|]. cbn [negb andb].
  destruct r1 as [|c2 r2]; [reflexivity|].
  destruct (if backwards then ws2 c2 c1 else ws2 c1 c2); [discriminate|].
  cbn [negb andb].
  destruct r2 as [|c3 r3]; [reflexivity|].
  now destruct (if backwards then ws3 c3 c2 c1 else ws3 c1 c2 c3).
Qed.

Lemma strip_suffix (backwards : bool) (l : list ascii) :
  exists p, l = p ++ strip backwards l.
Proof.
  remember (length l) as n eqn:Hlen. revert l Hlen.
  induction n as [n IH] using lt_wf_ind. intros l Hlen.
  destruct l as [|c1 r1]; [now exists []|]. cbn [strip].
  destruct (ws1 c1).
  { destruct (IH (length r1)) with (l := r1) as [p Hp];
      [subst; simpl; lia | reflexivity |].
    exists (c1 :: p). cbn [app]. now rewrite <- Hp. }
  destruct r1 as [|c2 r2]; [now exists []|].
  destruct (if backwards then ws2 c2 c1 else ws2 c1 c2).
  { destruct (IH (length r2)) with (l := r2) as [p Hp];
      [subst; simpl; lia | reflexivity |].
    exists (c1 :: c2 :: p). cbn [app]. now rewrite <- Hp. }
  destruct r2 as [|c3 r3]; [now exists []|].
  destruct (if backwards then ws3 c3 c2 c1 else ws3 c1 c2 c3).
  { destruct (IH (length r3)) with (l := r3) as [p Hp];
      [subst; simpl; lia | reflexivity |].
    exists (c1 :: c2 :: c3 :: p). cbn [app]. now rewrite <- Hp. }
  now exists [].
Qed.

Lemma starts_clean_prefix (backwards : bool) (p q : list ascii) :
  starts_clean backwards (p ++ q) = true -> starts_clean backwards p = true.
Proof.
  destruct p as [|c1 [|c2 [|c3 p]]]; cbn [app starts_clean]; try reflexivity.
  - destruct (ws1 c1); [discriminate | reflexivity].
  - destruct (ws1 c1); [discriminate|]. cbn [negb andb].
    destruct (if backwards then ws2 c2 c1 else ws2 c1 c2);
      [discriminate | reflexivity].
  - tauto.
Qed.

Lemma strip_blank (backwards : bool) (l : list ascii) :
  forallb ws1 l = true -> strip backwards l = [].
Proof.
  induction l as [|c l IH]; [reflexivity|]. cbn [forallb strip].
  destruct (ws1 c); [exact IH | discriminate].
Qed.

(** Trimming is idempotent: a question that went through [trim] is left as
    it is by a second [trim]. *)
Theorem trim_idempotent (s : string) : trim (trim s) = trim s.
Proof.
  unfold trim. rewrite list_ascii_of_string_of_list_ascii.
  set (A := strip false (list_ascii_of_string s)).
  set (B := strip true (rev A)).
  assert (HB : starts_clean true B = true) by apply strip_starts_clean.
  assert (HR : starts_clean false (rev B) = true).
  { destruct (strip_suffix true (rev A)) as [p Hp]. fold B in Hp.
    apply (starts_clean_prefix false (rev B) (rev p)).
    rewrite <- rev_app_distr, <- Hp, rev_involutive.
    apply strip_starts_clean. }
  rewrite (strip_of_clean false (rev B) HR), rev_involutive.
  now rewrite (strip_of_clean true B HB).
Qed.

Section ControllerProperties.
Context {number : Type} `{JsNumber number}.
Context {Vectors : Type}.

Local Abbreviation Doc := (Document number).

Variable similarity_search :
  EmbeddingsConfig -> Vectors -> nat -> string -> completion (list Doc).
Variable chat_completion : ChatConfig -> string -> completion string.

Lemma controller_run (ragService : RagService Vectors) (queryDto : CreateQueryDto) :
  RagController_query similarity_search chat_completion ragService queryDto
  = askQuestion similarity_search chat_completion ragService
      (trim (question queryDto)).
Proof.
  unfold RagController_query.
  destruct (askQuestion similarity_search chat_completion ragService
              (trim (question queryDto))) as [t [[a srcs]|e]];
    cbn [bind ret answer sources]; [|reflexivity].
  now rewrite app_nil_r.
Qed.

(** The controller adds nothing to askQuestion: the events, the response
    and, on failure, the error of a request are exactly those of askQuestion
    on the trimmed question; it neither catches nor rewrites an error. *)
Theorem controller_passes_through (ragService : RagService Vectors)
    (queryDto : CreateQueryDto) :
  RagController_query similarity_search chat_completion ragService queryDto
  = askQuestion similarity_search chat_completion ragService
      (trim (question queryDto)).
Proof. apply controller_run. Qed.

(** A question made only of blanks, tabs and line breaks reaches the
    service as the empty string: the request is processed as askQuestion on
    the empty query. *)
Theorem blank_question_is_empty_query (ragService : RagService Vectors)
    (queryDto : CreateQueryDto) :
  forallb ws1 (list_ascii_of_string (question queryDto)) = true ->
  RagController_query similarity_search chat_completion ragService queryDto
  = askQuestion similarity_search chat_completion ragService "".
Proof.
  intros Hblank. rewrite controller_run. f_equal.
  unfold trim. now rewrite (strip_blank false _ Hblank).
Qed.

End ControllerProperties.

(** * Further properties of the service *)

Lemma mapi_from_In {A B} (f : A -> nat -> B) (l : list A) (i : nat) (y : B) :
  In y (mapi_from i f l) ->
  exists position x, nth_error l position = Some x /\ y = f x (i + position).
Proof.
  revert i. induction l as [|x l IH]; intros i; cbn [mapi_from In]; [tauto|].
  intros [<- | Hin].
  - exists 0, x. split; [reflexivity|]. now rewrite Nat.add_0_r.
  - destruct (IH (S i) Hin) as (position & x' & Hnth & ->).
    exists (S position), x'. split; [exact Hnth|]. f_equal. lia.
Qed.

Lemma remove_duplicates_length (l : list string) :
  length (remove_duplicates l) <= length l.
Proof.
  apply NoDup_incl_length; [apply remove_duplicates_NoDup|].
  intros x Hx. exact (proj1 (remove_duplicates_In l x) Hx).
Qed.

Section ServiceEdgeCases.
Context {number : Type} `{JsNumber number}.
Context {Vectors : Type}.

Local Abbreviation value := (json number).
Local Abbreviation Doc := (Document number).

Variable JSON_parse : string -> completion value.
Variable embed_documents : EmbeddingsConfig -> list Doc -> completion Vectors.
Variable similarity_search :
  EmbeddingsConfig -> Vectors -> nat -> string -> completion (list Doc).
Variable chat_completion : ChatConfig -> string -> completion string.

Lemma askQuestion_returns (this : RagService Vectors) (query : string)
    (t : list event) (r : RagQueryResponse) :
  askQuestion similarity_search chat_completion this query = (t, Normal r) ->
  exists chain docs text,
    qaChain this = Some chain
    /\ retrieval similarity_search chain query = Normal docs
    /\ generation chat_completion chain query docs = Normal text
    /\ t = [LogInfo ("Processing query: " +:+ query); Retrieve query;
            Generate (composed_prompt chain query docs)]
    /\ r = mkResponse (choose_answer (answered chain docs text))
             (new_Set (collect_sources (answered chain docs text))).
Proof.
  destruct (qaChain this) as [chain|] eqn:Hq.
  - rewrite (askQuestion_run similarity_search chat_completion this chain query Hq).
    destruct (retrieval similarity_search chain query) as [docs|e] eqn:Hr;
      [|discriminate].
    destruct (generation chat_completion chain query docs) as [text|e] eqn:Hg;
      [|discriminate].
    intros [= <- <-]. exists chain, docs, text. repeat split; assumption.
  - rewrite (askQuestion_not_initialized similarity_search chat_completion
               this query Hq).
    discriminate.
Qed.

Lemma askQuestion_throws (this : RagService Vectors) (query : string)
    (t : list event) (e : Error) :
  askQuestion similarity_search chat_completion this query = (t, Throw e) ->
  exists e0 t0,
    raised_by similarity_search chat_completion this query e0
    /\ e = query_failure e0
    /\ t = t0 ++ [LogError "Error processing query:" e0]
    /\ count is_LogError t0 = 0.
Proof.
  destruct (qaChain this) as [chain|] eqn:Hq.
  - rewrite (askQuestion_run similarity_search chat_completion this chain query Hq).
    destruct (retrieval similarity_search chain query) as [docs|e1] eqn:Hr.
    + destruct (generation chat_completion chain query docs) as [text|e1] eqn:Hg;
        [discriminate|].
      intros [= <- <-]. exists e1.
      exists [LogInfo ("Processing query: " +:+ query); Retrieve query;
              Generate (composed_prompt chain query docs)].
      repeat split. eapply raised_by_generation; eauto.
    + intros [= <- <-]. exists e1.
      exists [LogInfo ("Processing query: " +:+ query); Retrieve query].
      repeat split. eapply raised_by_retrieval; eauto.
  - rewrite (askQuestion_not_initialized similarity_search chat_completion
               this query Hq).
    intros [= <- <-]. exists (new_Error "RAG system is not initialized"), [].
    repeat split. now apply raised_not_initialized.
Qed.

Lemma push_sources_entries (docs : list Doc) :
  forall index acc,
    push_sources docs index acc = acc ++ mapi_from index source_entry docs.
Proof.
  induction docs as [|doc docs IH]; intros index acc;
    cbn [push_sources mapi_from].
  - now rewrite app_nil_r.
  - rewrite IH. now rewrite <- app_assoc.
Qed.

(** askQuestion never returns an empty answer: an empty generated text is
    replaced by the fixed message, every other text is returned as it is. *)
Theorem answer_never_empty (this : RagService Vectors) (query : string)
    (r : RagQueryResponse) :
  snd (askQuestion similarity_search chat_completion this query) = Normal r ->
  answer r <> "".
Proof.
  destruct (askQuestion similarity_search chat_completion this query)
    as [t c] eqn:Hrun.
  cbn [snd]. intros ->.
  destruct (askQuestion_returns this query t r Hrun)
    as (chain & docs & text & _ & _ & _ & _ & ->).
  cbn [answer choose_answer answered cv_text cv_answer string_truthy].
  destruct (String.eqb_spec text "") as [->|Hne]; cbn [negb];
    [discriminate | exact Hne].
Qed.

(** The returned sources never hold a duplicate and never more entries than
    documents were retrieved, whatever metadata the documents carry; each
    returned string is the one rendered for some retrieved document at its
    position. *)
Theorem sources_without_duplicates (this : RagService Vectors)
    (chain : RetrievalQAChain Vectors) (query : string) (docs : list Doc)
    (r : RagQueryResponse) :
  qaChain this = Some chain ->
  retrieval similarity_search chain query = Normal docs ->
  snd (askQuestion similarity_search chat_completion this query) = Normal r ->
  NoDup (sources r)
  /\ length (sources r) <= length docs
  /\ forall s,
       In s (sources r) ->
       exists position d,
         nth_error docs position = Some d /\ s = source_entry d position.
Proof.
  intros Hq Hr.
  rewrite (askQuestion_run similarity_search chat_completion this chain query Hq),
    Hr.
  destruct (generation chat_completion chain query docs) as [text|e];
    [|discriminate].
  cbn [snd]. intros [= <-]. cbn [sources].
  rewrite new_Set_remove_duplicates.
  assert (Hsub : forall s,
             In s (collect_sources (answered chain docs text)) ->
             In s (mapi_from 0 source_entry docs)).
  { unfold collect_sources, answered. cbn [cv_sourceDocuments].
    destruct (returnSourceDocuments chain); [|contradiction].
    intros s. now rewrite push_sources_entries. }
  split; [apply remove_duplicates_NoDup|]. split.
  - rewrite <- (mapi_from_length source_entry docs 0).
    apply NoDup_incl_length; [apply remove_duplicates_NoDup|].
    intros s Hs. apply Hsub. exact (proj1 (remove_duplicates_In _ s) Hs).
  - intros s Hs. apply (proj1 (remove_duplicates_In _ s)) in Hs.
    apply Hsub in Hs.
    destruct (mapi_from_In _ _ _ _ Hs) as (position & d & Hnth & ->).
    exists position, d. now split.
Qed.

(** An answered query costs exactly one retrieval call followed by one
    generation call, on the prompt composed from the retrieved documents;
    nothing is logged as an error. *)
Theorem answered_query_calls (this : RagService Vectors) (query : string)
    (r : RagQueryResponse) :
  snd (askQuestion similarity_search chat_completion this query) = Normal r ->
  exists chain docs,
    qaChain this = Some chain
    /\ retrieval similarity_search chain query = Normal docs
    /\ fst (askQuestion similarity_search chat_completion this query)
       = [LogInfo ("Processing query: " +:+ query); Retrieve query;
          Generate (composed_prompt chain query docs)].
Proof.
  destruct (askQuestion similarity_search chat_completion this query)
    as [t c] eqn:Hrun.
  cbn [snd fst]. intros ->.
  destruct (askQuestion_returns this query t r Hrun)
    as (chain & docs & text & Hq & Hr & _ & -> & _).
  exists chain, docs. repeat split; assumption.
Qed.

(** Whenever getInsights fails, its error wraps the original error twice:
    the message is "Failed to generate insights: Failed to process query: "
    followed by the original message, and exactly two errors were logged. *)
Theorem insights_error_wrapped_twice (this : RagService Vectors)
    (t : list event) (e : Error) :
  getInsights similarity_search chat_completion this = (t, Throw e) ->
  exists e0,
    raised_by similarity_search chat_completion this insightsPrompt e0
    /\ e = new_Error ("Failed to generate insights: Failed to process query: "
                        +:+ message e0)
    /\ count is_LogError t = 2.
Proof.
  unfold getInsights.
  destruct (askQuestion similarity_search chat_completion this insightsPrompt)
    as [t1 [r|e1]] eqn:Hrun; cbn [bind ret try_catch emit throw app];
    [discriminate|].
  intros [= <- <-].
  destruct (askQuestion_throws this insightsPrompt t1 e1 Hrun)
    as (e0 & t0 & Hraised & -> & -> & Hcount).
  exists e0. split; [exact Hraised|]. split; [reflexivity|].
  unfold count in *. rewrite !filter_app, !length_app, Hcount. reflexivity.
Qed.

(** When the retrieval call fails, the model is never called: the only
    provider call of the request is that retrieval. *)
Theorem retrieval_failure_skips_generation (this : RagService Vectors)
    (chain : RetrievalQAChain Vectors) (query : string) (e : Error) :
  qaChain this = Some chain ->
  retrieval similarity_search chain query = Throw e ->
  count is_Generate
    (fst (askQuestion similarity_search chat_completion this query)) = 0
  /\ filter is_provider_call
       (fst (askQuestion similarity_search chat_completion this query))
     = [Retrieve query].
Proof.
  intros Hq Hr.
  rewrite (askQuestion_run similarity_search chat_completion this chain query Hq),
    Hr.
  split; reflexivity.
Qed.

(** *** Initialization *)

Lemma loadDocuments_run (env : Environment) :
  loadDocuments JSON_parse env
  = match dataset_file env with
    | None =>
        ([LogError "Error loading documents:"
            (new_Error ("Dataset file not found at: " +:+ jsonPath env))],
         Throw (new_Error ("Dataset file not found at: " +:+ jsonPath env)))
    | Some text =>
        match JSON_parse text with
        | Throw e => ([LogError "Error loading documents:" e], Throw e)
        | Normal jsonData =>
            match documents_of jsonData with
            | Throw e => ([LogError "Error loading documents:" e], Throw e)
            | Normal docs =>
                ([LogInfo ("Loaded "
                             +:+ num_to_string (num_of_nat (length docs))
                             +:+ " documents from JSON file")],
                 Normal docs)
            end
        end
    end.
Proof.
  unfold loadDocuments. destruct (dataset_file env) as [text|]; [|reflexivity].
  cbn [bind lift]. destruct (JSON_parse text) as [jsonData|e]; [|reflexivity].
  destruct (documents_of jsonData) as [docs|e]; reflexivity.
Qed.

Lemma initializeRag_failure_state (env : Environment) (this : RagService Vectors)
    (e : Error) :
  snd (snd (initializeRag JSON_parse embed_documents env this)) = Throw e ->
  qaChain (fst (initializeRag JSON_parse embed_documents env this)) = qaChain this
  /\ vectorStore (fst (initializeRag JSON_parse embed_documents env this))
     = vectorStore this
  /\ exists t0,
       fst (snd (initializeRag JSON_parse embed_documents env this))
       = LogInfo "Initializing RAG system..." :: t0
           ++ [LogError "Failed to initialize RAG system:" e].
Proof.
  unfold initializeRag.
  destruct (string_truthy (GEMINI_API_KEY env)).
  - destruct (loadDocuments JSON_parse env) as [t1 [docs|e1]].
    + destruct (fromDocuments embed_documents docs _) as [t2 [vs|e2]];
        cbn [fst snd]; [discriminate|].
      intros [= <-]. repeat split. now exists (t1 ++ t2).
    + cbn [fst snd]. intros [= <-]. repeat split. now exists t1.
  - cbn [fst snd]. intros [= <-]. repeat split. now exists [].
Qed.

(** Initialization completes exactly when the API key is configured and
    non-empty, the dataset file exists, parses and converts to documents,
    and the indexing of those documents succeeds. *)
Theorem initialization_succeeds_iff (env : Environment) (this : RagService Vectors) :
  snd (snd (initializeRag JSON_parse embed_documents env this)) = Normal tt
  <-> exists key text jsonData docs vs,
        GEMINI_API_KEY env = Some key
        /\ key <> ""
        /\ dataset_file env = Some text
        /\ JSON_parse text = Normal jsonData
        /\ documents_of jsonData = Normal docs
        /\ embed_documents (mkEmbeddings key "embedding-001") docs = Normal vs.
Proof.
  unfold initializeRag. rewrite loadDocuments_run. split.
  - destruct (GEMINI_API_KEY env) as [key|]; cbn [string_truthy];
      [|discriminate].
    destruct (String.eqb_spec key "") as [->|Hne]; cbn [negb]; [discriminate|].
    destruct (dataset_file env) as [text|]; [|discriminate].
    destruct (JSON_parse text) as [jsonData|e] eqn:Hparse; [|discriminate].
    destruct (documents_of jsonData) as [docs|e] eqn:Hdocs; [|discriminate].
    unfold fromDocuments. cbn [bind emit lift ret app].
    destruct (embed_documents _ docs) as [vs|e] eqn:Hembed; [|discriminate].
    intros _. exists key, text, jsonData, docs, vs.
    split; [reflexivity|]. split; [exact Hne|].
    split; [reflexivity|]. split; [exact Hparse|].
    split; [exact Hdocs | exact Hembed].
  - intros (key & text & jsonData & docs & vs
            & -> & Hne & -> & -> & -> & Hembed).
    cbn [string_truthy]. destruct (String.eqb_spec key ""); [contradiction|].
    cbn [negb]. unfold fromDocuments. cbn [bind emit lift ret app].
    now rewrite Hembed.
Qed.

(** After a completed initialization every query is retrieved from the store
    indexed at start-up, with k = 5 and with the very embeddings
    configuration (API key, model embedding-001) the documents were indexed
    with; the chain uses the fixed prompt template, the chat model
    gemini-2.0-flash, and returns its source documents. *)
Theorem retrieval_after_initialization (env : Environment)
    (this : RagService Vectors) :
  snd (snd (initializeRag JSON_parse embed_documents env this)) = Normal tt ->
  exists key docs vs chain,
    GEMINI_API_KEY env = Some key
    /\ snd (loadDocuments JSON_parse env) = Normal docs
    /\ embed_documents (mkEmbeddings key "embedding-001") docs = Normal vs
    /\ qaChain (fst (initializeRag JSON_parse embed_documents env this))
       = Some chain
    /\ chain_llm chain = mkChat key "gemini-2.0-flash"
    /\ chain_prompt chain = promptTemplate
    /\ returnSourceDocuments chain = true
    /\ forall query,
         retrieval similarity_search chain query
         = similarity_search (mkEmbeddings key "embedding-001") vs 5 query.
Proof.
  unfold initializeRag.
  destruct (GEMINI_API_KEY env) as [key|]; cbn [string_truthy]; [|discriminate].
  destruct (String.eqb_spec key "") as [->|Hne]; cbn [negb]; [discriminate|].
  destruct (loadDocuments JSON_parse env) as [t1 [docs|e1]]; [|discriminate].
  unfold fromDocuments. cbn [bind emit lift ret app].
  destruct (embed_documents _ docs) as [vs|e] eqn:Hembed; [|discriminate].
  intros _. cbn [fst snd qaChain].
  eexists key, docs, vs, _. repeat split; try reflexivity. exact Hembed.
Qed.

(** A failed initialization leaves the QA chain and the vector store as they
    were, rethrows the error it met unchanged, and logs that error last. *)
Theorem failed_initialization_keeps_chain (env : Environment)
    (this : RagService Vectors) (e : Error) :
  snd (snd (initializeRag JSON_parse embed_documents env this)) = Throw e ->
  qaChain (fst (initializeRag JSON_parse embed_documents env this)) = qaChain this
  /\ vectorStore (fst (initializeRag JSON_parse embed_documents env this))
     = vectorStore this
  /\ exists t0,
       fst (snd (initializeRag JSON_parse embed_documents env this))
       = LogInfo "Initializing RAG system..." :: t0
           ++ [LogError "Failed to initialize RAG system:" e].
Proof. apply initializeRag_failure_state. Qed.

(** On a service whose initialization failed, every question fails with
    "Failed to process query: RAG system is not initialized", without any
    retrieval or generation call. *)
Theorem question_after_failed_initialization (env : Environment) (e : Error)
    (query : string) :
  snd (snd (initializeRag JSON_parse embed_documents env new_RagService))
  = Throw e ->
  askQuestion similarity_search chat_completion
    (fst (initializeRag JSON_parse embed_documents env new_RagService)) query
  = ([LogError "Error processing query:"
        (new_Error "RAG system is not initialized")],
     Throw (new_Error "Failed to process query: RAG system is not initialized")).
Proof.
  intros Hfail.
  destruct (initializeRag_failure_state env new_RagService e Hfail) as (Hq & _).
  now rewrite (askQuestion_not_initialized similarity_search chat_completion
                 _ query Hq).
Qed.

(** Without an API key (absent or empty) initialization fails at once with
    the BadRequestException "GEMINI_API_KEY is not configured": the dataset
    is not loaded, no provider is called and the service is left untouched. *)
Theorem initialization_without_api_key (env : Environment)
    (this : RagService Vectors) :
  string_truthy (GEMINI_API_KEY env) = false ->
  initializeRag JSON_parse embed_documents env this
  = (this,
     ([LogInfo "Initializing RAG system...";
       LogError "Failed to initialize RAG system:"
         (mkError "BadRequestException" "GEMINI_API_KEY is not configured")],
      Throw (mkError "BadRequestException" "GEMINI_API_KEY is not configured"))).
Proof.
  intros Hkey. unfold initializeRag. now rewrite Hkey.
Qed.

(** When the dataset file does not exist, initialization fails with
    "Dataset file not found at: <path>", the error is logged by the loader
    and again by the initializer, and nothing is parsed or indexed. *)
Theorem initialization_without_dataset (env : Environment)
    (this : RagService Vectors) (key : string) :
  GEMINI_API_KEY env = Some key ->
  key <> "" ->
  dataset_file env = None ->
  snd (initializeRag JSON_parse embed_documents env this)
  = ([LogInfo "Initializing RAG system...";
      LogError "Error loading documents:"
        (new_Error ("Dataset file not found at: " +:+ jsonPath env));
      LogError "Failed to initialize RAG system:"
        (new_Error ("Dataset file not found at: " +:+ jsonPath env))],
     Throw (new_Error ("Dataset file not found at: " +:+ jsonPath env))).
Proof.
  intros Hkey Hne Hfile. unfold initializeRag.
  rewrite loadDocuments_run, Hkey, Hfile. cbn [string_truthy].
  destruct (String.eqb_spec key ""); [contradiction | reflexivity].
Qed.

End ServiceEdgeCases.

(** * Concrete runs of the further properties *)

Lemma null_entry_witness :
  In JNull [sample_record; JNull]
  /\ loadDocuments holed_parse (sample_env (JSON_stringify_pretty holed_dataset))
     = ([LogError "Error loading documents:"
           (new_TypeError "Cannot read properties of null (reading 'nama')")],
        Throw (new_TypeError "Cannot read properties of null (reading 'nama')")).
Proof.
  assert (Hin : In (JNull : json Z) [sample_record; JNull])
    by (right; left; reflexivity).
  split; [exact Hin|].
  apply (null_entry_fails_loading holed_parse
           (sample_env (JSON_stringify_pretty holed_dataset))
           (JSON_stringify_pretty holed_dataset) [sample_record; JNull]).
  - reflexivity.
  - vm_compute. reflexivity.
  - exact Hin.
Defined.

Lemma plain_value_witness :
  make_document (JStr "catatan" : json Z) 4
  = Normal (mkDocument (DQUOTE +:+ "catatan" +:+ DQUOTE)
              (Some [ ("source", JStr "dataset_umkm.json"); ("index", JNum 4%Z) ])).
Proof.
  assert (Hn : (JStr "catatan" : json Z) <> JNull) by discriminate.
  assert (Hobj : forall props, (JStr "catatan" : json Z) <> JObj props)
    by discriminate.
  exact (document_of_plain_value (JStr "catatan" : json Z) 4 Hn Hobj).
Defined.

Lemma text_nonempty_witness :
  exists text,
    extractContentFromItem sample_record = Normal text /\ text <> "".
Proof.
  apply (document_text_nonempty sample_record); discriminate.
Defined.

Lemma metadata_invariant_witness :
  exists md,
    metadata (document_for sample_record 0) = Some md
    /\ get_own md "source" = Some (JStr "dataset_umkm.json")
    /\ get_own md "index" = Some (JNum 0%Z)
    /\ NoDup (map fst md).
Proof.
  destruct (metadata_invariant sample_record 0 (document_for sample_record 0))
    as (md & Hmd & Hs & Hi & Hnd & _).
  - vm_compute. reflexivity.
  - exists md. repeat split; assumption.
Defined.

Lemma dataset_source_witness :
  source_entry (document_for sample_record 0) 3 = "dataset_umkm.json (Document 0)".
Proof.
  assert (Hd : make_document sample_record 0
               = Normal (document_for sample_record 0))
    by (vm_compute; reflexivity).
  exact (dataset_document_source sample_record 0 3
           (document_for sample_record 0) Hd).
Defined.

Lemma answer_nonempty_witness :
  snd (askQuestion sample_search silent_chat sample_service sample_question)
  = Normal (mkResponse "Tidak dapat menemukan jawaban yang sesuai."
              ["dataset_umkm.json (Document 0)"; "dataset_umkm.json (Document 1)"])
  /\ "Tidak dapat menemukan jawaban yang sesuai." <> "".
Proof.
  assert (Hrun : snd (askQuestion sample_search silent_chat sample_service
                        sample_question)
                 = Normal (mkResponse "Tidak dapat menemukan jawaban yang sesuai."
                             ["dataset_umkm.json (Document 0)";
                              "dataset_umkm.json (Document 1)"]))
    by (vm_compute; reflexivity).
  split; [exact Hrun|].
  exact (answer_never_empty sample_search silent_chat sample_service
           sample_question _ Hrun).
Defined.

Lemma sources_bound_witness :
  exists r,
    snd (askQuestion sample_search sample_chat sample_service sample_question)
    = Normal r
    /\ NoDup (sources r)
    /\ length (sources r) <= 2.
Proof.
  eexists. split; [vm_compute; reflexivity|].
  destruct (sources_without_duplicates sample_search sample_chat sample_service
              sample_chain sample_question sample_documents
              (mkResponse "UMKM adalah usaha mikro, kecil, dan menengah."
                 ["dataset_umkm.json (Document 0)";
                  "dataset_umkm.json (Document 1)"]))
    as (Hnd & Hlen & _).
  - vm_compute. reflexivity.
  - reflexivity.
  - vm_compute. reflexivity.
  - split; [exact Hnd | exact Hlen].
Defined.

Lemma answered_calls_witness :
  exists chain docs,
    qaChain sample_service = Some chain
    /\ retrieval sample_search chain sample_question = Normal docs
    /\ fst (askQuestion sample_search sample_chat sample_service sample_question)
       = [LogInfo ("Processing query: " +:+ sample_question);
          Retrieve sample_question;
          Generate (composed_prompt chain sample_question docs)].
Proof.
  apply (answered_query_calls sample_search sample_chat sample_service
           sample_question
           (mkResponse "UMKM adalah usaha mikro, kecil, dan menengah."
              ["dataset_umkm.json (Document 0)";
               "dataset_umkm.json (Document 1)"])).
  vm_compute. reflexivity.
Defined.

Lemma insights_error_witness :
  exists e0,
    raised_by sample_search failing_chat sample_service insightsPrompt e0
    /\ snd (getInsights sample_search failing_chat sample_service)
       = Throw (new_Error ("Failed to generate insights: Failed to process query: "
                             +:+ message e0)).
Proof.
  destruct (insights_error_wrapped_twice sample_search failing_chat sample_service
              (fst (getInsights sample_search failing_chat sample_service))
              (new_Error
                 "Failed to generate insights: Failed to process query: 503 Service Unavailable"))
    as (e0 & Hraised & He & _).
  - vm_compute. reflexivity.
  - exists e0. split; [exact Hraised|]. rewrite <- He.
    vm_compute. reflexivity.
Defined.

Lemma blank_question_witness :
  RagController_query sample_search sample_chat sample_service
    (mkQuery ("   " +:+ LF))
  = askQuestion sample_search sample_chat sample_service "".
Proof.
  apply (blank_question_is_empty_query sample_search sample_chat sample_service
           (mkQuery ("   " +:+ LF))).
  vm_compute. reflexivity.
Defined.

Lemma initialized_retrieval_witness :
  exists chain,
    qaChain sample_service = Some chain
    /\ forall query,
         retrieval sample_search chain query
         = sample_search (mkEmbeddings "test-key" "embedding-001")
             sample_documents 5 query.
Proof.
  destruct (retrieval_after_initialization sample_parse sample_embed sample_search
              (sample_env (JSON_stringify_pretty sample_dataset)) new_RagService)
    as (key & docs & vs & chain & Hkey & Hdocs & Hvs & Hq & _ & _ & _ & Hret).
  - vm_compute. reflexivity.
  - exists chain. split; [exact Hq|].
    intros query. rewrite (Hret query).
    injection Hkey as <-. vm_compute in Hdocs. injection Hdocs as <-.
    vm_compute in Hvs. injection Hvs as <-. reflexivity.
Defined.

Lemma failed_initialization_witness :
  snd (snd (initializeRag sample_parse sample_embed (sample_env "null")
              new_RagService))
  = Throw (new_TypeError "Cannot read properties of null (reading 'nama')")
  /\ qaChain (fst (initializeRag sample_parse sample_embed (sample_env "null")
                     new_RagService))
     = None.
Proof.
  assert (Hfail : snd (snd (initializeRag sample_parse sample_embed
                              (sample_env "null") new_RagService))
                  = Throw (new_TypeError
                             "Cannot read properties of null (reading 'nama')"))
    by (vm_compute; reflexivity).
  split; [exact Hfail|].
  exact (proj1 (failed_initialization_keeps_chain sample_parse sample_embed
                  (sample_env "null") new_RagService _ Hfail)).
Defined.

Lemma question_after_failure_witness :
  snd (askQuestion sample_search sample_chat
         (fst (initializeRag sample_parse sample_embed (sample_env "null")
                 new_RagService))
         sample_question)
  = Throw (new_Error "Failed to process query: RAG system is not initialized").
Proof.
  rewrite (question_after_failed_initialization sample_parse sample_embed
             sample_search sample_chat (sample_env "null")
             (new_TypeError "Cannot read properties of null (reading 'nama')")
             sample_question).
  - reflexivity.
  - vm_compute. reflexivity.
Defined.

Lemma no_api_key_witness :
  snd (snd (initializeRag sample_parse sample_embed
              (mkEnv (Some "") "/app/src/common/data/json/dataset_umkm.json"
                 (Some "null"))
              new_RagService))
  = Throw (mkError "BadRequestException" "GEMINI_API_KEY is not configured").
Proof.
  rewrite (initialization_without_api_key sample_parse sample_embed
             (mkEnv (Some "") "/app/src/common/data/json/dataset_umkm.json"
                (Some "null"))
             new_RagService).
  - reflexivity.
  - reflexivity.
Defined.

Lemma no_dataset_witness :
  snd (snd (initializeRag sample_parse sample_embed
              (mkEnv (Some "test-key")
                 "/app/src/common/data/json/dataset_umkm.json" None)
              new_RagService))
  = Throw (new_Error
             "Dataset file not found at: /app/src/common/data/json/dataset_umkm.json").
Proof.
  rewrite (initialization_without_dataset sample_parse sample_embed
             (mkEnv (Some "test-key")
                "/app/src/common/data/json/dataset_umkm.json" None)
             new_RagService "test-key").
  - reflexivity.
  - reflexivity.
  - discriminate.
  - reflexivity.
Defined.

Lemma retrieval_failure_witness :
  filter is_provider_call
    (fst (askQuestion failing_search sample_chat sample_service sample_question))
  = [Retrieve sample_question].
Proof.
  apply (retrieval_failure_skips_generation failing_search sample_chat
           sample_service sample_chain sample_question
           (new_Error "429 Too Many Requests")).
  - vm_compute. reflexivity.
  - reflexivity.
Defined.

(** * Retrieval from the vector store *)

Section VectorStoreProperties.
Context {number : Type} `{JsNumber number}.

Local Abbreviation value := (json number).
Local Abbreviation Doc := (Document number).

Variable JSON_parse : string -> completion value.
Variable Vec : Type.
Variable embed_text : EmbeddingsConfig -> string -> completion Vec.
Variable cosine_similarity : Vec -> Vec -> Q.
Variable chat_completion : ChatConfig -> string -> completion string.

Lemma index_documents_entries (e : EmbeddingsConfig) (documents : list Doc) :
  forall entries,
    index_documents embed_text e documents = Normal entries ->
    map snd entries = documents
    /\ Forall (fun entry =>
                 embed_text e (pageContent (snd entry)) = Normal (fst entry))
         entries.
Proof.
  induction documents as [|doc rest IH]; intros entries; cbn [index_documents].
  - intros [= <-]. split; constructor.
  - destruct (embed_text e (pageContent doc)) as [v|err] eqn:Ev; cbn [cbind];
      [|discriminate].
    destruct (index_documents embed_text e rest) as [es|err]; cbn [cbind];
      [|discriminate].
    intros [= <-]. destruct (IH es eq_refl) as [Hdocs Hvec].
    cbn [map snd]. split; [now rewrite Hdocs|].
    constructor; [exact Ev | exact Hvec].
Qed.

Lemma insert_ranked_In (qv : Vec) (x z : Vec * Doc) (ranked : list (Vec * Doc)) :
  In z (insert_ranked cosine_similarity qv x ranked) -> z = x \/ In z ranked.
Proof.
  induction ranked as [|y rest IH]; cbn [insert_ranked].
  - intros [<- | []]. now left.
  - destruct (Qle_bool _ _).
    + intros [<- | Hin]; [now left | now right].
    + intros [<- | Hin]; [right; now left|].
      destruct (IH Hin) as [-> | Hrest]; [now left | right; now right].
Qed.

Lemma insert_ranked_perm (qv : Vec) (x : Vec * Doc) (ranked : list (Vec * Doc)) :
  Permutation (insert_ranked cosine_similarity qv x ranked) (x :: ranked).
Proof.
  induction ranked as [|y rest IH]; cbn [insert_ranked]; [reflexivity|].
  destruct (Qle_bool _ _); [reflexivity|].
  rewrite IH. apply perm_swap.
Qed.

Lemma rank_perm (qv : Vec) (entries : list (Vec * Doc)) :
  Permutation (rank cosine_similarity qv entries) entries.
Proof.
  induction entries as [|x rest IH]; cbn [rank]; [reflexivity|].
  rewrite insert_ranked_perm. now constructor.
Qed.

Lemma insert_ranked_sorted (qv : Vec) (x : Vec * Doc) (ranked : list (Vec * Doc)) :
  StronglySorted (scores_above cosine_similarity qv) ranked ->
  StronglySorted (scores_above cosine_similarity qv)
    (insert_ranked cosine_similarity qv x ranked).
Proof.
  induction 1 as [|y rest Hsorted IH Hy]; cbn [insert_ranked].
  - constructor; constructor.
  - destruct (Qle_bool (score cosine_similarity qv y)
                (score cosine_similarity qv x)) eqn:E.
    + apply Qle_bool_iff in E.
      constructor; [now constructor|].
      constructor; [exact E|].
      rewrite Forall_forall in Hy |- *. intros z Hz.
      unfold scores_above in *. eapply Qle_trans; [apply Hy, Hz | exact E].
    + assert (Hlt : Qlt (score cosine_similarity qv x)
                      (score cosine_similarity qv y)).
      { apply Qnot_le_lt. intros Hle. apply Qle_bool_iff in Hle. congruence. }
      constructor; [exact IH|].
      rewrite Forall_forall in Hy |- *. intros z Hz.
      destruct (insert_ranked_In qv x z rest Hz) as [-> | Hrest].
      * unfold scores_above. now apply Qlt_le_weak.
      * now apply Hy.
Qed.

Lemma rank_sorted (qv : Vec) (entries : list (Vec * Doc)) :
  StronglySorted (scores_above cosine_similarity qv)
    (rank cosine_similarity qv entries).
Proof.
  induction entries as [|x rest IH]; cbn [rank]; [constructor|].
  now apply insert_ranked_sorted.
Qed.

Lemma insert_ranked_other (qv : Vec) (p : Vec * Doc -> bool) (x : Vec * Doc)
    (ranked : list (Vec * Doc)) :
  p x = false ->
  filter p (insert_ranked cosine_similarity qv x ranked) = filter p ranked.
Proof.
  intros Hx. induction ranked as [|y rest IH]; cbn [insert_ranked filter].
  - now rewrite Hx.
  - destruct (Qle_bool _ _); cbn [filter]; [now rewrite Hx|].
    now rewrite IH.
Qed.

Lemma insert_ranked_tie (qv : Vec) (s : Q) (x : Vec * Doc)
    (ranked : list (Vec * Doc)) :
  has_score cosine_similarity qv s x = true ->
  filter (has_score cosine_similarity qv s)
    (insert_ranked cosine_similarity qv x ranked)
  = x :: filter (has_score cosine_similarity qv s) ranked.
Proof.
  intros Hx. induction ranked as [|y rest IH]; cbn [insert_ranked filter].
  - now rewrite Hx.
  - destruct (Qle_bool (score cosine_similarity qv y)
                (score cosine_similarity qv x)) eqn:E; cbn [filter].
    + now rewrite Hx.
    + destruct (has_score cosine_similarity qv s y) eqn:Ey; [|exact IH].
      exfalso. unfold has_score in Hx, Ey.
      apply Qeq_bool_iff in Hx. apply Qeq_bool_iff in Ey.
      assert (Hle : Qle (score cosine_similarity qv y)
                      (score cosine_similarity qv x))
        by (rewrite Hx, Ey; apply Qle_refl).
      apply Qle_bool_iff in Hle. congruence.
Qed.

Lemma rank_stable (qv : Vec) (s : Q) (entries : list (Vec * Doc)) :
  filter (has_score cosine_similarity qv s) (rank cosine_similarity qv entries)
  = filter (has_score cosine_similarity qv s) entries.
Proof.
  induction entries as [|x rest IH]; cbn [rank filter]; [reflexivity|].
  destruct (has_score cosine_similarity qv s x) eqn:Ex.
  - rewrite (insert_ranked_tie qv s x _ Ex). now rewrite IH.
  - rewrite (insert_ranked_other qv _ x _ Ex). exact IH.
Qed.

Lemma sorted_firstn_skipn {A} (R : A -> A -> Prop) (l : list A) :
  StronglySorted R l ->
  forall n a b, In a (firstn n l) -> In b (skipn n l) -> R a b.
Proof.
  induction 1 as [|x l Hsorted IH Hx]; intros n a b.
  - rewrite firstn_nil. contradiction.
  - destruct n as [|n]; cbn [firstn skipn]; [contradiction|].
    intros [<- | Ha] Hb.
    + rewrite Forall_forall in Hx. apply Hx.
      rewrite <- (firstn_skipn n l). apply in_or_app. now right.
    + now apply (IH n).
Qed.


End VectorStoreProperties.

